(** * Trust score engine (src/trust-engine.ts)

    A shallow embedding of the scoring and decay engine of the Moltbot Den
    trust protocol, and the properties its specification states about it.

    Number model.  A JavaScript [number] is read as a real number: [/], [*],
    [+] and [-] are the field operations of [R], [Math.min] and [Math.max]
    are [Rmin] and [Rmax], [Math.round] is rounding to the nearest integer
    with ties going up ([floor (x + 1/2)], which is what ECMAScript
    prescribes), and [Math.pow] with the positive base [1 - 0.05] is the real
    power function.  IEEE-754 rounding error, [NaN] and the infinities are
    outside this model: where an exact product or quotient falls on or next
    to a rounding tie, the program's doubles can land one point away from
    the value computed here.  [Date.now()] is an explicit argument [now]. *)

From Stdlib Require Import Reals Lra Lia ZArith List String Zfloor.
From Stdlib Require Import Ascii NArith.
From Stdlib Require Strings.Byte.
Import ListNotations.

Local Open Scope R_scope.

(** ** The JavaScript numeric primitives the engine calls *)

Module JS.

Definition Math_min (x y : R) : R := Rmin x y.

Definition Math_max (x y : R) : R := Rmax x y.

(** [Math.round]: the integer nearest to [x], a tie going to the larger one. *)
Definition Math_round (x : R) : R := IZR (Zfloor (x + / 2)).

(** [Math.pow] at a positive base. *)
Definition Math_pow (b e : R) : R := Rpower b e.

(** A number that is an integer value. *)
Definition is_integer (x : R) : Prop := exists z : Z, x = IZR z.

End JS.

Import JS.

(** ** schema.ts *)

Inductive VerificationTier : Set :=
  | UNVERIFIED
  | BASIC
  | VERIFIED
  | AUDITED
  | ENTERPRISE.

(** The ordinal the enumeration assigns to a tier. *)
Definition tier_ordinal (t : VerificationTier) : Z :=
  match t with
  | UNVERIFIED => 0
  | BASIC => 1
  | VERIFIED => 2
  | AUDITED => 3
  | ENTERPRISE => 4
  end.

Module TrustAttestation.

Record t : Type := mk {
  agentId : string;
  agentName : string;
  solanaWallet : string;
  trustScore : R;
  platformActivity : R;
  skillVerifications : R;
  endorsements : R;
  reviews : R;
  deploymentMetrics : R;
  onchainReputation : R;
  securityAudit : R;
  accountAge : R;
  verificationTier : VerificationTier;
  attestedAt : R;
  attestedBy : string;
  version : R;
  lastActivityAt : R;
  decayRate : R
}.

End TrustAttestation.

(** ** trust-engine.ts: configuration *)

(** The eight keys of the [WEIGHTS] table and of the component objects. *)
Inductive ComponentKey : Set :=
  | K_platformActivity
  | K_skillVerifications
  | K_endorsements
  | K_reviews
  | K_deploymentMetrics
  | K_onchainReputation
  | K_securityAudit
  | K_accountAge.

Module WEIGHTS.

Definition platformActivity : R := 150.
Definition skillVerifications : R := 150.
Definition endorsements : R := 150.
Definition reviews : R := 150.
Definition deploymentMetrics : R := 150.
Definition onchainReputation : R := 100.
Definition securityAudit : R := 100.
Definition accountAge : R := 50.

End WEIGHTS.

Definition DECAY_RATE_MONTHLY : R := 5 / 100.

Definition DECAY_COMPONENTS : list ComponentKey :=
  [K_platformActivity; K_endorsements; K_reviews; K_deploymentMetrics].

Module AgentPlatformData.

Record t : Type := mk {
  agentId : string;
  agentName : string;
  solanaWallet : string;
  denMessages : R;
  dmsSent : R;
  promptResponses : R;
  verifiedSkills : R;
  totalSkills : R;
  endorsementsReceived : R;
  endorserAvgTrust : R;
  reviewCount : R;
  avgReviewScore : R;
  uptimePercent : R;
  responseQuality : R;
  walletAge : R;
  txCount : R;
  securityAuditPassed : bool;
  auditScore : R;
  accountAgeDays : R;
  verificationTier : VerificationTier;
  lastActivityAt : R
}.

End AgentPlatformData.

(** The object literal [components] and its copy [decayed]: one number per
    key, listed in the order the literal writes them. *)
Module Components.

Record t : Type := mk {
  platformActivity : R;
  skillVerifications : R;
  endorsements : R;
  reviews : R;
  deploymentMetrics : R;
  onchainReputation : R;
  securityAudit : R;
  accountAge : R
}.

(** [c[key]] *)
Definition get (key : ComponentKey) (c : t) : R :=
  match key with
  | K_platformActivity => platformActivity c
  | K_skillVerifications => skillVerifications c
  | K_endorsements => endorsements c
  | K_reviews => reviews c
  | K_deploymentMetrics => deploymentMetrics c
  | K_onchainReputation => onchainReputation c
  | K_securityAudit => securityAudit c
  | K_accountAge => accountAge c
  end.

(** [c[key] = v] on an object that already has the key. *)
Definition set (key : ComponentKey) (v : R) (c : t) : t :=
  match key with
  | K_platformActivity =>
      mk v (skillVerifications c) (endorsements c) (reviews c)
         (deploymentMetrics c) (onchainReputation c) (securityAudit c)
         (accountAge c)
  | K_skillVerifications =>
      mk (platformActivity c) v (endorsements c) (reviews c)
         (deploymentMetrics c) (onchainReputation c) (securityAudit c)
         (accountAge c)
  | K_endorsements =>
      mk (platformActivity c) (skillVerifications c) v (reviews c)
         (deploymentMetrics c) (onchainReputation c) (securityAudit c)
         (accountAge c)
  | K_reviews =>
      mk (platformActivity c) (skillVerifications c) (endorsements c) v
         (deploymentMetrics c) (onchainReputation c) (securityAudit c)
         (accountAge c)
  | K_deploymentMetrics =>
      mk (platformActivity c) (skillVerifications c) (endorsements c)
         (reviews c) v (onchainReputation c) (securityAudit c) (accountAge c)
  | K_onchainReputation =>
      mk (platformActivity c) (skillVerifications c) (endorsements c)
         (reviews c) (deploymentMetrics c) v (securityAudit c) (accountAge c)
  | K_securityAudit =>
      mk (platformActivity c) (skillVerifications c) (endorsements c)
         (reviews c) (deploymentMetrics c) (onchainReputation c) v
         (accountAge c)
  | K_accountAge =>
      mk (platformActivity c) (skillVerifications c) (endorsements c)
         (reviews c) (deploymentMetrics c) (onchainReputation c)
         (securityAudit c) v
  end.

(** [Object.values(c)], in insertion order. *)
Definition values (c : t) : list R :=
  [platformActivity c; skillVerifications c; endorsements c; reviews c;
   deploymentMetrics c; onchainReputation c; securityAudit c; accountAge c].

End Components.

(** ** trust-engine.ts: the component scorer *)

Section Scorer.

Import AgentPlatformData.

Definition calcPlatformActivity (data : AgentPlatformData.t) : R :=
  let messageScore := Math_min (denMessages data / 100) 1 * 60 in
  let dmScore := Math_min (dmsSent data / 50) 1 * 40 in
  let promptScore := Math_min (promptResponses data / 10) 1 * 50 in
  Math_min (Math_round (messageScore + dmScore + promptScore))
           WEIGHTS.platformActivity.

Definition calcSkillVerifications (data : AgentPlatformData.t) : R :=
  if Req_dec_T (totalSkills data) 0 then 0
  else
    let ratio := verifiedSkills data / Math_max (totalSkills data) 1 in
    let countBonus := Math_min (verifiedSkills data / 10) 1 * 50 in
    Math_min (Math_round (ratio * 100 + countBonus))
             WEIGHTS.skillVerifications.

Definition calcEndorsements (data : AgentPlatformData.t) : R :=
  let countScore := Math_min (endorsementsReceived data / 20) 1 * 75 in
  let qualityScore := (endorserAvgTrust data / 1000) * 75 in
  Math_min (Math_round (countScore + qualityScore)) WEIGHTS.endorsements.

Definition calcReviews (data : AgentPlatformData.t) : R :=
  let countScore := Math_min (reviewCount data / 15) 1 * 75 in
  let qualityScore := (avgReviewScore data / 5) * 75 in
  Math_min (Math_round (countScore + qualityScore)) WEIGHTS.reviews.

Definition calcDeploymentMetrics (data : AgentPlatformData.t) : R :=
  let uptimeScore := (uptimePercent data / 100) * 75 in
  let qualityScore := (responseQuality data / 100) * 75 in
  Math_min (Math_round (uptimeScore + qualityScore))
           WEIGHTS.deploymentMetrics.

Definition calcOnchainReputation (data : AgentPlatformData.t) : R :=
  let ageScore := Math_min (walletAge data / 365) 1 * 50 in
  let txScore := Math_min (txCount data / 100) 1 * 50 in
  Math_min (Math_round (ageScore + txScore)) WEIGHTS.onchainReputation.

Definition calcSecurityAudit (data : AgentPlatformData.t) : R :=
  if negb (securityAuditPassed data) then 0
  else Math_min (auditScore data) WEIGHTS.securityAudit.

Definition calcAccountAge (data : AgentPlatformData.t) : R :=
  Math_min
    (Math_round (Math_min (accountAgeDays data / 180) 1 * WEIGHTS.accountAge))
    WEIGHTS.accountAge.

End Scorer.

(** ** trust-engine.ts: the decay model *)

(** [30 * 24 * 60 * 60 * 1000]: the milliseconds of a thirty-day month. *)
Definition MONTH_MS : R := 30 * 24 * 60 * 60 * 1000.

Definition applyDecay (score lastActivityAt now : R) : R :=
  let monthsInactive := (now - lastActivityAt) / MONTH_MS in
  if Rle_dec monthsInactive 0 then score
  else
    let decayFactor := Math_pow (1 - DECAY_RATE_MONTHLY) monthsInactive in
    Math_round (score * decayFactor).

(** ** trust-engine.ts: the attestation assembler *)

(** [now] is the value [Date.now()] returns inside the call. *)
Definition calculateTrustScore (now : R) (data : AgentPlatformData.t)
  : TrustAttestation.t :=
  let components :=
    Components.mk
      (calcPlatformActivity data)
      (calcSkillVerifications data)
      (calcEndorsements data)
      (calcReviews data)
      (calcDeploymentMetrics data)
      (calcOnchainReputation data)
      (calcSecurityAudit data)
      (calcAccountAge data) in
  let decayed :=
    fold_left
      (fun decayed key =>
         Components.set key
           (applyDecay (Components.get key components)
                       (AgentPlatformData.lastActivityAt data) now)
           decayed)
      DECAY_COMPONENTS components in
  let trustScore :=
    fold_left (fun sum v => sum + v) (Components.values decayed) 0 in
  TrustAttestation.mk
    (AgentPlatformData.agentId data)
    (AgentPlatformData.agentName data)
    (AgentPlatformData.solanaWallet data)
    trustScore
    (Components.platformActivity decayed)
    (Components.skillVerifications decayed)
    (Components.endorsements decayed)
    (Components.reviews decayed)
    (Components.deploymentMetrics decayed)
    (Components.onchainReputation decayed)
    (Components.securityAudit decayed)
    (Components.accountAge decayed)
    (AgentPlatformData.verificationTier data)
    now
    "moltbotden-oracle"
    1
    (AgentPlatformData.lastActivityAt data)
    (DECAY_RATE_MONTHLY * 100).

(** ** trust-engine.ts: the query-time re-derivation *)

Record CurrentScore : Type := mkCurrentScore {
  currentScore : R;
  decayApplied : R
}.

(** [now] is the value [Date.now()] returns inside the call. *)
Definition getCurrentScore (now : R) (attestation : TrustAttestation.t)
  : CurrentScore :=
  let monthsInactive :=
    (now - TrustAttestation.lastActivityAt attestation) / MONTH_MS in
  if Rle_dec monthsInactive 0 then
    mkCurrentScore (TrustAttestation.trustScore attestation) 0
  else
    let decayFactor := Math_pow (1 - DECAY_RATE_MONTHLY) monthsInactive in
    let activityComponents :=
      TrustAttestation.platformActivity attestation
      + TrustAttestation.endorsements attestation
      + TrustAttestation.reviews attestation
      + TrustAttestation.deploymentMetrics attestation in
    let stableComponents :=
      TrustAttestation.trustScore attestation - activityComponents in
    let decayedActivity := Math_round (activityComponents * decayFactor) in
    let currentScore := stableComponents + decayedActivity in
    mkCurrentScore currentScore
      (TrustAttestation.trustScore attestation - currentScore).

(** ** The specification's vocabulary *)

(** The declared closed interval of each sub-score, on an attestation. *)
Definition sub_scores_in_range (a : TrustAttestation.t) : Prop :=
  0 <= TrustAttestation.platformActivity a <= 150 /\
  0 <= TrustAttestation.skillVerifications a <= 150 /\
  0 <= TrustAttestation.endorsements a <= 150 /\
  0 <= TrustAttestation.reviews a <= 150 /\
  0 <= TrustAttestation.deploymentMetrics a <= 150 /\
  0 <= TrustAttestation.onchainReputation a <= 100 /\
  0 <= TrustAttestation.securityAudit a <= 100 /\
  0 <= TrustAttestation.accountAge a <= 50.

(** Only the ceilings of the declared intervals. *)
Definition sub_scores_below_caps (a : TrustAttestation.t) : Prop :=
  TrustAttestation.platformActivity a <= 150 /\
  TrustAttestation.skillVerifications a <= 150 /\
  TrustAttestation.endorsements a <= 150 /\
  TrustAttestation.reviews a <= 150 /\
  TrustAttestation.deploymentMetrics a <= 150 /\
  TrustAttestation.onchainReputation a <= 100 /\
  TrustAttestation.securityAudit a <= 100 /\
  TrustAttestation.accountAge a <= 50.

(** The sum of the eight sub-scores stored in an attestation. *)
Definition sub_score_sum (a : TrustAttestation.t) : R :=
  TrustAttestation.platformActivity a
  + TrustAttestation.skillVerifications a
  + TrustAttestation.endorsements a
  + TrustAttestation.reviews a
  + TrustAttestation.deploymentMetrics a
  + TrustAttestation.onchainReputation a
  + TrustAttestation.securityAudit a
  + TrustAttestation.accountAge a.

(** The sum of the four activity sub-scores stored in an attestation. *)
Definition activity_subtotal (a : TrustAttestation.t) : R :=
  TrustAttestation.platformActivity a
  + TrustAttestation.endorsements a
  + TrustAttestation.reviews a
  + TrustAttestation.deploymentMetrics a.

(** Every numeric field of the input is non-negative. *)
Definition nonneg_input (d : AgentPlatformData.t) : Prop :=
  0 <= AgentPlatformData.denMessages d /\
  0 <= AgentPlatformData.dmsSent d /\
  0 <= AgentPlatformData.promptResponses d /\
  0 <= AgentPlatformData.verifiedSkills d /\
  0 <= AgentPlatformData.totalSkills d /\
  0 <= AgentPlatformData.endorsementsReceived d /\
  0 <= AgentPlatformData.endorserAvgTrust d /\
  0 <= AgentPlatformData.reviewCount d /\
  0 <= AgentPlatformData.avgReviewScore d /\
  0 <= AgentPlatformData.uptimePercent d /\
  0 <= AgentPlatformData.responseQuality d /\
  0 <= AgentPlatformData.walletAge d /\
  0 <= AgentPlatformData.txCount d /\
  0 <= AgentPlatformData.auditScore d /\
  0 <= AgentPlatformData.accountAgeDays d /\
  0 <= AgentPlatformData.lastActivityAt d.

(** The documented scale of the ratio and percentage fields. *)
Definition ratios_in_range (d : AgentPlatformData.t) : Prop :=
  AgentPlatformData.endorserAvgTrust d <= 1000 /\
  AgentPlatformData.avgReviewScore d <= 5 /\
  AgentPlatformData.uptimePercent d <= 100 /\
  AgentPlatformData.responseQuality d <= 100 /\
  AgentPlatformData.auditScore d <= 100.

Definition valid_input (d : AgentPlatformData.t) : Prop :=
  nonneg_input d /\ ratios_in_range d.

(** The data model's invariant of an attestation: integer sub-scores inside
    their intervals, and a composite score that is their sum. *)
Definition well_formed (a : TrustAttestation.t) : Prop :=
  sub_scores_in_range a /\
  is_integer (TrustAttestation.platformActivity a) /\
  is_integer (TrustAttestation.skillVerifications a) /\
  is_integer (TrustAttestation.endorsements a) /\
  is_integer (TrustAttestation.reviews a) /\
  is_integer (TrustAttestation.deploymentMetrics a) /\
  is_integer (TrustAttestation.onchainReputation a) /\
  is_integer (TrustAttestation.securityAudit a) /\
  is_integer (TrustAttestation.accountAge a) /\
  TrustAttestation.trustScore a = sub_score_sum a.

(** The stored activity subtotal is a non-negative integer. *)
Definition well_formed_activity (a : TrustAttestation.t) : Prop :=
  is_integer (activity_subtotal a) /\ 0 <= activity_subtotal a.

(** The fields of an attestation that the query-time re-derivation reads. *)
Definition same_query_fields (a b : TrustAttestation.t) : Prop :=
  TrustAttestation.trustScore a = TrustAttestation.trustScore b /\
  TrustAttestation.platformActivity a = TrustAttestation.platformActivity b /\
  TrustAttestation.endorsements a = TrustAttestation.endorsements b /\
  TrustAttestation.reviews a = TrustAttestation.reviews b /\
  TrustAttestation.deploymentMetrics a
    = TrustAttestation.deploymentMetrics b /\
  TrustAttestation.lastActivityAt a = TrustAttestation.lastActivityAt b.

(** Elapsed months between the last activity and [now], as the engine
    computes them. *)
Definition elapsedMonths (lastActivityAt now : R) : R :=
  (now - lastActivityAt) / MONTH_MS.

(** ** Sample inputs *)

(** The first agent of the repository's demo script, with the clock read at
    [1770000000000] and the last activity thirty minutes earlier. *)
Definition demo_now : R := 1770000000000.

Definition optimus_will : AgentPlatformData.t :=
  AgentPlatformData.mk
    "optimus-will" "OptimusWill"
    "FxfNUY8kahJsnWwKnUJv4r8feJNqvLbvVenQCqGHnjyh"
    150 80 12 6 6 5 600 3 (45 / 10) 99 90 30 50 false 0 15 VERIFIED
    (demo_now - 1000 * 60 * 30).

(** An attestation with composite score 500 of which 200 is activity,
    last active at time 0. *)
Definition stored_500_200 : TrustAttestation.t :=
  TrustAttestation.mk
    "agent" "Agent" "wallet"
    500 50 100 50 50 50 100 50 50 BASIC 0 "moltbotden-oracle" 1 0 5.

(** The same scores under another identity, tier, issuance time, version,
    decay rate and split of the decay-immune sub-scores. *)
Definition stored_500_200_other : TrustAttestation.t :=
  TrustAttestation.mk
    "other" "Other" "purse"
    500 50 150 50 50 50 50 100 0 ENTERPRISE 77 "someone" 9 0 12.

(** An agent with no listed skill (three claimed as verified) and an audit
    score of 90 whose audit did not pass; every other metric is 0. *)
Definition unaudited_90 : AgentPlatformData.t :=
  AgentPlatformData.mk
    "unaudited" "Unaudited" "wallet"
    0 0 0 3 0 0 0 0 0 0 0 0 0 false 90 0 UNVERIFIED 0.

(** The same agent with six of eight skills verified and the audit passed
    at 80. *)
Definition audited_80 : AgentPlatformData.t :=
  AgentPlatformData.mk
    "audited" "Audited" "wallet"
    0 0 0 6 8 0 0 0 0 0 0 0 0 true 80 0 AUDITED 0.

(** 100 messages and 50 direct messages, nothing else, last active at
    time 0. *)
Definition stale_messenger : AgentPlatformData.t :=
  AgentPlatformData.mk
    "stale" "Stale" "wallet"
    100 50 0 0 0 0 0 0 0 0 0 0 0 false 0 0 BASIC 0.

(** A message count of -100, nothing else. *)
Definition negative_counts : AgentPlatformData.t :=
  AgentPlatformData.mk
    "negative" "Negative" "wallet"
    (-100) 0 0 0 0 0 0 0 0 0 0 0 0 false 0 0 BASIC 0.

(** A passed audit with the score 55.5, nothing else. *)
Definition fractional_audit : AgentPlatformData.t :=
  AgentPlatformData.mk
    "fractional" "Fractional" "wallet"
    0 0 0 0 0 0 0 0 0 0 0 0 0 true (111 / 2) 0 AUDITED 0.

(** Every count at 100000 and every ratio far above its scale. *)
Definition oversized_metrics : AgentPlatformData.t :=
  AgentPlatformData.mk
    "oversized" "Oversized" "wallet"
    100000 100000 100000 100000 7 100000 5000 100000 40 250 300 100000
    100000 true 900 100000 ENTERPRISE 0.

(** ** solana-attestor.ts: the memo payload *)

(** [Math.floor] *)
Definition Math_floor (x : R) : R := IZR (Zfloor x).

(** The object [c] of the memo: the eight sub-scores under their short
    keys. *)
Module CompactComponents.

Record t : Type := mk {
  pa : R;
  sv : R;
  en : R;
  rv : R;
  dm : R;
  or : R;
  sa : R;
  aa : R
}.

End CompactComponents.

(** The compact object [writeAttestation] serialises into the memo.  The
    key [at] is a reserved word here and is written [at_]. *)
Module CompactAttestation.

Record t : Type := mk {
  v : R;
  id : string;
  n : string;
  w : string;
  ts : R;
  c : CompactComponents.t;
  vt : VerificationTier;
  at_ : R;
  la : R;
  ver : R;
  dr : R
}.

End CompactAttestation.

(** The object literal [compactAttestation] inside [writeAttestation]; the
    oracle check before it and the signing and sending after it are not
    part of this function. *)
Definition compactAttestation (attestation : TrustAttestation.t)
  : CompactAttestation.t :=
  CompactAttestation.mk
    1
    (TrustAttestation.agentId attestation)
    (TrustAttestation.agentName attestation)
    (TrustAttestation.solanaWallet attestation)
    (TrustAttestation.trustScore attestation)
    (CompactComponents.mk
       (TrustAttestation.platformActivity attestation)
       (TrustAttestation.skillVerifications attestation)
       (TrustAttestation.endorsements attestation)
       (TrustAttestation.reviews attestation)
       (TrustAttestation.deploymentMetrics attestation)
       (TrustAttestation.onchainReputation attestation)
       (TrustAttestation.securityAudit attestation)
       (TrustAttestation.accountAge attestation))
    (TrustAttestation.verificationTier attestation)
    (Math_floor (TrustAttestation.attestedAt attestation / 1000))
    (Math_floor (TrustAttestation.lastActivityAt attestation / 1000))
    (TrustAttestation.version attestation)
    (TrustAttestation.decayRate attestation).

(** ** solana-attestor.ts: the attestation address *)

(** The digits [Buffer.toString('hex')] writes. *)
Definition hex_digits : list ascii :=
  ["0"; "1"; "2"; "3"; "4"; "5"; "6"; "7"; "8"; "9";
   "a"; "b"; "c"; "d"; "e"; "f"]%char.

Definition hex_digit (n : N) : ascii := nth (N.to_nat n) hex_digits "0"%char.

(** [buffer.toString('hex')]: two digits per byte, the high one first. *)
Fixpoint toString_hex (bytes : list Byte.byte) : string :=
  match bytes with
  | [] => EmptyString
  | b :: rest =>
      String (hex_digit (Byte.to_N b / 16))
        (String (hex_digit (Byte.to_N b mod 16)) (toString_hex rest))
  end.

(** [s.slice(from, to)] for [0 <= from <= to]: the characters from index
    [from] up to, not including, index [to], as far as [s] has them. *)
Definition slice (from to : nat) (s : string) : string :=
  substring from (to - from) s.

(** [sha256] stands for [crypto.createHash('sha256').update(s).digest()],
    a function of the runtime: the bytes of the digest of [s]. *)
Definition getAttestationAddress
    (sha256 : string -> list Byte.byte) (agentId : string) : string :=
  let hash := sha256 ("moltbotden-trust:" ++ agentId)%string in
  slice 0 32 (toString_hex hash).

(** Reading hexadecimal back. *)
Definition hex_value (c : ascii) : option N :=
  (fix find (l : list ascii) (i : N) : option N :=
     match l with
     | [] => None
     | d :: r => if Ascii.eqb c d then Some i else find r (i + 1)%N
     end) hex_digits 0%N.

Definition byte_of_hex (hi lo : ascii) : option Byte.byte :=
  match hex_value hi, hex_value lo with
  | Some h, Some l => Byte.of_N (h * 16 + l)
  | _, _ => None
  end.

(** A stand-in digest for examples: the first 32 bytes of the text, padded
    with zero bytes. *)
Definition padded_digest (s : string) : list Byte.byte :=
  firstn 32 (list_byte_of_string s ++ repeat Byte.x00 32).

(** ** Further vocabulary *)

(** Every metric at or above the point where its term stops growing, with
    the audit passed. *)
Definition saturated_input (d : AgentPlatformData.t) : Prop :=
  100 <= AgentPlatformData.denMessages d /\
  50 <= AgentPlatformData.dmsSent d /\
  10 <= AgentPlatformData.promptResponses d /\
  10 <= AgentPlatformData.verifiedSkills d /\
  0 < AgentPlatformData.totalSkills d <= AgentPlatformData.verifiedSkills d /\
  20 <= AgentPlatformData.endorsementsReceived d /\
  1000 <= AgentPlatformData.endorserAvgTrust d /\
  15 <= AgentPlatformData.reviewCount d /\
  5 <= AgentPlatformData.avgReviewScore d /\
  100 <= AgentPlatformData.uptimePercent d /\
  100 <= AgentPlatformData.responseQuality d /\
  365 <= AgentPlatformData.walletAge d /\
  100 <= AgentPlatformData.txCount d /\
  AgentPlatformData.securityAuditPassed d = true /\
  100 <= AgentPlatformData.auditScore d /\
  180 <= AgentPlatformData.accountAgeDays d.

(** Every metric of the input is 0; the audit flag and score are free as
    long as a passed audit scores 0. *)
Definition zero_metrics (d : AgentPlatformData.t) : Prop :=
  AgentPlatformData.denMessages d = 0 /\
  AgentPlatformData.dmsSent d = 0 /\
  AgentPlatformData.promptResponses d = 0 /\
  AgentPlatformData.verifiedSkills d = 0 /\
  AgentPlatformData.totalSkills d = 0 /\
  AgentPlatformData.endorsementsReceived d = 0 /\
  AgentPlatformData.endorserAvgTrust d = 0 /\
  AgentPlatformData.reviewCount d = 0 /\
  AgentPlatformData.avgReviewScore d = 0 /\
  AgentPlatformData.uptimePercent d = 0 /\
  AgentPlatformData.responseQuality d = 0 /\
  AgentPlatformData.walletAge d = 0 /\
  AgentPlatformData.txCount d = 0 /\
  (AgentPlatformData.securityAuditPassed d = true ->
   AgentPlatformData.auditScore d = 0) /\
  AgentPlatformData.accountAgeDays d = 0.

(** [d2] reports at least as much as [d1] in every metric, for the same
    number of listed skills, the same audit flag and the same last
    activity. *)
Definition metrics_le (d1 d2 : AgentPlatformData.t) : Prop :=
  AgentPlatformData.denMessages d1 <= AgentPlatformData.denMessages d2 /\
  AgentPlatformData.dmsSent d1 <= AgentPlatformData.dmsSent d2 /\
  AgentPlatformData.promptResponses d1
    <= AgentPlatformData.promptResponses d2 /\
  AgentPlatformData.verifiedSkills d1 <= AgentPlatformData.verifiedSkills d2 /\
  AgentPlatformData.totalSkills d1 = AgentPlatformData.totalSkills d2 /\
  AgentPlatformData.endorsementsReceived d1
    <= AgentPlatformData.endorsementsReceived d2 /\
  AgentPlatformData.endorserAvgTrust d1
    <= AgentPlatformData.endorserAvgTrust d2 /\
  AgentPlatformData.reviewCount d1 <= AgentPlatformData.reviewCount d2 /\
  AgentPlatformData.avgReviewScore d1 <= AgentPlatformData.avgReviewScore d2 /\
  AgentPlatformData.uptimePercent d1 <= AgentPlatformData.uptimePercent d2 /\
  AgentPlatformData.responseQuality d1
    <= AgentPlatformData.responseQuality d2 /\
  AgentPlatformData.walletAge d1 <= AgentPlatformData.walletAge d2 /\
  AgentPlatformData.txCount d1 <= AgentPlatformData.txCount d2 /\
  AgentPlatformData.securityAuditPassed d1
    = AgentPlatformData.securityAuditPassed d2 /\
  AgentPlatformData.auditScore d1 <= AgentPlatformData.auditScore d2 /\
  AgentPlatformData.accountAgeDays d1 <= AgentPlatformData.accountAgeDays d2 /\
  AgentPlatformData.lastActivityAt d1 = AgentPlatformData.lastActivityAt d2.

(** The raw fields the four decay-immune scorers read. *)
Definition same_durable_metrics (d1 d2 : AgentPlatformData.t) : Prop :=
  AgentPlatformData.verifiedSkills d1 = AgentPlatformData.verifiedSkills d2 /\
  AgentPlatformData.totalSkills d1 = AgentPlatformData.totalSkills d2 /\
  AgentPlatformData.walletAge d1 = AgentPlatformData.walletAge d2 /\
  AgentPlatformData.txCount d1 = AgentPlatformData.txCount d2 /\
  AgentPlatformData.securityAuditPassed d1
    = AgentPlatformData.securityAuditPassed d2 /\
  AgentPlatformData.auditScore d1 = AgentPlatformData.auditScore d2 /\
  AgentPlatformData.accountAgeDays d1 = AgentPlatformData.accountAgeDays d2.

(** Two inputs that report the same metrics, audit flag and last
    activity; identity and tier are free. *)
Definition same_metrics (d1 d2 : AgentPlatformData.t) : Prop :=
  AgentPlatformData.denMessages d1 = AgentPlatformData.denMessages d2 /\
  AgentPlatformData.dmsSent d1 = AgentPlatformData.dmsSent d2 /\
  AgentPlatformData.promptResponses d1
  = AgentPlatformData.promptResponses d2 /\
  AgentPlatformData.endorsementsReceived d1
  = AgentPlatformData.endorsementsReceived d2 /\
  AgentPlatformData.endorserAvgTrust d1
  = AgentPlatformData.endorserAvgTrust d2 /\
  AgentPlatformData.reviewCount d1 = AgentPlatformData.reviewCount d2 /\
  AgentPlatformData.avgReviewScore d1 = AgentPlatformData.avgReviewScore d2 /\
  AgentPlatformData.uptimePercent d1 = AgentPlatformData.uptimePercent d2 /\
  AgentPlatformData.responseQuality d1
  = AgentPlatformData.responseQuality d2 /\
  AgentPlatformData.lastActivityAt d1 = AgentPlatformData.lastActivityAt d2 /\
  same_durable_metrics d1 d2.

(** The sum of the four decay-immune sub-scores stored in an attestation. *)
Definition durable_subtotal (a : TrustAttestation.t) : R :=
  TrustAttestation.skillVerifications a
  + TrustAttestation.onchainReputation a
  + TrustAttestation.securityAudit a
  + TrustAttestation.accountAge a.

(** ** Further sample inputs *)

(** Every metric exactly at its saturation point, last active at
    [demo_now]. *)
Definition saturated_agent : AgentPlatformData.t :=
  AgentPlatformData.mk
    "saturated" "Saturated" "wallet"
    100 50 10 10 10 20 1000 15 5 100 100 365 100 true 100 180 ENTERPRISE
    demo_now.

(** No metric at all, audit not passed, last active at time 0. *)
Definition blank_agent : AgentPlatformData.t :=
  AgentPlatformData.mk
    "blank" "Blank" "wallet"
    0 0 0 0 0 0 0 0 0 0 0 0 0 false 0 0 UNVERIFIED 0.

(** [optimus_will] with the last activity moved to time 0 and the
    messaging metrics wiped. *)
Definition optimus_will_silent : AgentPlatformData.t :=
  AgentPlatformData.mk
    "optimus-will" "OptimusWill"
    "FxfNUY8kahJsnWwKnUJv4r8feJNqvLbvVenQCqGHnjyh"
    0 0 0 6 6 0 0 0 0 0 0 30 50 false 0 15 VERIFIED 0.

(** [optimus_will]'s metrics under another identity and tier. *)
Definition optimus_will_renamed : AgentPlatformData.t :=
  AgentPlatformData.mk
    "somebody-else" "Somebody" "11111111111111111111111111111111"
    150 80 12 6 6 5 600 3 (45 / 10) 99 90 30 50 false 0 15 ENTERPRISE
    (demo_now - 1000 * 60 * 30).

(** An attestation issued at 1700000000999 for a last activity at
    1699999999001. *)
Definition stored_subsecond : TrustAttestation.t :=
  TrustAttestation.mk
    "agent" "Agent" "wallet"
    500 50 100 50 50 50 100 50 50 BASIC 1700000000999 "moltbotden-oracle"
    1 1699999999001 5.

(** ** Rounding, capping and the decay factor *)

Section Numbers.

Lemma Math_round_bounds (x : R) : x - / 2 < Math_round x <= x + / 2.
Proof.
  unfold Math_round.
  pose proof (Zfloor_bound (x + / 2)) as [Hlo Hhi].
  lra.
Qed.

Lemma Math_round_eq (z : Z) (x : R) :
  IZR z - / 2 <= x < IZR z + / 2 -> Math_round x = IZR z.
Proof.
  intros Hx. unfold Math_round. f_equal.
  apply Zfloor_eq. lra.
Qed.

Lemma Math_round_IZR (z : Z) : Math_round (IZR z) = IZR z.
Proof. apply Math_round_eq. lra. Qed.

Lemma Math_round_le (x y : R) : x <= y -> Math_round x <= Math_round y.
Proof.
  intros Hxy. unfold Math_round.
  apply IZR_le, Zfloor_le. lra.
Qed.

Lemma Math_round_integer (x : R) : is_integer (Math_round x).
Proof. exists (Zfloor (x + / 2)). reflexivity. Qed.

Lemma Math_round_le_int (z : Z) (x : R) : x <= IZR z -> Math_round x <= IZR z.
Proof.
  intros Hx. rewrite <- (Math_round_IZR z). now apply Math_round_le.
Qed.

Lemma Math_round_ge_int (z : Z) (x : R) : IZR z <= x -> IZR z <= Math_round x.
Proof.
  intros Hx. rewrite <- (Math_round_IZR z). now apply Math_round_le.
Qed.

Lemma Math_round_nonneg (x : R) : 0 <= x -> 0 <= Math_round x.
Proof. apply (Math_round_ge_int 0). Qed.

Lemma Math_min_le_r (x y : R) : Math_min x y <= y.
Proof. apply Rmin_r. Qed.

Lemma Math_min_le_l (x y : R) : Math_min x y <= x.
Proof. apply Rmin_l. Qed.

Lemma Math_min_glb (x y z : R) : z <= x -> z <= y -> z <= Math_min x y.
Proof. apply Rmin_glb. Qed.

Lemma Math_min_left (x y : R) : x <= y -> Math_min x y = x.
Proof. apply Rmin_left. Qed.

Lemma Math_min_right (x y : R) : y <= x -> Math_min x y = y.
Proof. apply Rmin_right. Qed.

Lemma Math_min_integer (x y : R) :
  is_integer x -> is_integer y -> is_integer (Math_min x y).
Proof.
  intros Hx Hy. unfold Math_min, Rmin.
  destruct (Rle_dec x y); assumption.
Qed.

Lemma is_integer_IZR (z : Z) : is_integer (IZR z).
Proof. now exists z. Qed.

Lemma is_integer_plus (x y : R) :
  is_integer x -> is_integer y -> is_integer (x + y).
Proof.
  intros [a ->] [b ->]. exists (a + b)%Z. now rewrite plus_IZR.
Qed.

Lemma is_integer_minus (x y : R) :
  is_integer x -> is_integer y -> is_integer (x - y).
Proof.
  intros [a ->] [b ->]. exists (a - b)%Z. now rewrite minus_IZR.
Qed.

(** One "capped ratio times weight" term is never negative on a
    non-negative count. *)
Lemma capped_term_nonneg (x c w : R) :
  0 <= x -> 0 < c -> 0 <= w -> 0 <= Math_min (x / c) 1 * w.
Proof.
  intros Hx Hc Hw.
  apply Rmult_le_pos; [| exact Hw].
  apply Math_min_glb; [| lra].
  apply Rmult_le_pos; [exact Hx |].
  left. now apply Rinv_0_lt_compat.
Qed.

Lemma ratio_term_nonneg (x c w : R) :
  0 <= x -> 0 < c -> 0 <= w -> 0 <= x / c * w.
Proof.
  intros Hx Hc Hw.
  apply Rmult_le_pos; [| exact Hw].
  apply Rmult_le_pos; [exact Hx |].
  left. now apply Rinv_0_lt_compat.
Qed.

Lemma MONTH_MS_pos : 0 < MONTH_MS.
Proof. unfold MONTH_MS. lra. Qed.

Lemma elapsedMonths_pos (lastActivityAt now : R) :
  lastActivityAt < now <-> 0 < elapsedMonths lastActivityAt now.
Proof.
  unfold elapsedMonths. pose proof MONTH_MS_pos as Hm. split; intros H.
  - apply Rmult_lt_0_compat; [lra | now apply Rinv_0_lt_compat].
  - destruct (Rle_dec now lastActivityAt) as [Hle | Hgt]; [| lra].
    exfalso.
    pose proof (Rinv_0_lt_compat _ Hm) as Hi.
    unfold Rdiv in H. nra.
Qed.

Lemma elapsedMonths_lt (lastActivityAt now1 now2 : R) :
  now1 < now2 ->
  elapsedMonths lastActivityAt now1 < elapsedMonths lastActivityAt now2.
Proof.
  intros H. unfold elapsedMonths, Rdiv.
  apply Rmult_lt_compat_r; [| lra].
  apply Rinv_0_lt_compat, MONTH_MS_pos.
Qed.

Lemma ln_decay_base_neg : ln (1 - DECAY_RATE_MONTHLY) < 0.
Proof.
  rewrite <- ln_1. apply ln_increasing; unfold DECAY_RATE_MONTHLY; lra.
Qed.

(** The decay factor of a positive elapsed time lies strictly between 0
    and 1. *)
Lemma decayFactor_bounds (m : R) :
  0 < m -> 0 < Math_pow (1 - DECAY_RATE_MONTHLY) m < 1.
Proof.
  intros Hm. unfold Math_pow, Rpower. split.
  - apply exp_pos.
  - pose proof ln_decay_base_neg as Hln.
    pose proof (exp_increasing (m * ln (1 - DECAY_RATE_MONTHLY)) 0) as He.
    rewrite exp_0 in He. apply He. nra.
Qed.

(** The decay factor shrinks as the elapsed time grows. *)
Lemma decayFactor_decreasing (m1 m2 : R) :
  m1 < m2 ->
  Math_pow (1 - DECAY_RATE_MONTHLY) m2 < Math_pow (1 - DECAY_RATE_MONTHLY) m1.
Proof.
  intros Hm. unfold Math_pow, Rpower.
  apply exp_increasing.
  pose proof ln_decay_base_neg as Hln. nra.
Qed.

(** At a whole number of months the factor is the plain power. *)
Lemma decayFactor_whole_months (n : nat) :
  Math_pow (1 - DECAY_RATE_MONTHLY) (INR n) = (95 / 100) ^ n.
Proof.
  unfold Math_pow. rewrite Rpower_pow.
  - f_equal. unfold DECAY_RATE_MONTHLY. lra.
  - unfold DECAY_RATE_MONTHLY. lra.
Qed.

End Numbers.

(** ** The decay model, case by case *)

Section Decay.

Variables score lastActivityAt now : R.

Lemma applyDecay_not_elapsed :
  now <= lastActivityAt -> applyDecay score lastActivityAt now = score.
Proof.
  intros Hle. unfold applyDecay.
  destruct (Rle_dec ((now - lastActivityAt) / MONTH_MS) 0) as [_ | Hpos].
  - reflexivity.
  - exfalso. apply Hpos. apply Rnot_lt_le. intros Hlt.
    apply (proj2 (elapsedMonths_pos lastActivityAt now)) in Hlt. lra.
Qed.

Lemma applyDecay_elapsed :
  lastActivityAt < now ->
  applyDecay score lastActivityAt now
  = Math_round (score * Math_pow (1 - DECAY_RATE_MONTHLY)
                                 (elapsedMonths lastActivityAt now)).
Proof.
  intros Hlt. unfold applyDecay.
  apply (proj1 (elapsedMonths_pos lastActivityAt now)) in Hlt.
  unfold elapsedMonths in *.
  destruct (Rle_dec ((now - lastActivityAt) / MONTH_MS) 0) as [Hle | _].
  - lra.
  - reflexivity.
Qed.

Lemma applyDecay_cases :
  (now <= lastActivityAt /\ applyDecay score lastActivityAt now = score) \/
  (lastActivityAt < now /\
   exists f : R, 0 < f < 1 /\
     applyDecay score lastActivityAt now = Math_round (score * f)).
Proof.
  destruct (Rle_dec now lastActivityAt) as [Hle | Hgt].
  - left. split; [exact Hle | now apply applyDecay_not_elapsed].
  - right. apply Rnot_le_lt in Hgt. split; [exact Hgt |].
    exists (Math_pow (1 - DECAY_RATE_MONTHLY)
                     (elapsedMonths lastActivityAt now)).
    split.
    + apply decayFactor_bounds.
      exact (proj1 (elapsedMonths_pos lastActivityAt now) Hgt).
    + now apply applyDecay_elapsed.
Qed.

Lemma applyDecay_nonneg :
  0 <= score -> 0 <= applyDecay score lastActivityAt now.
Proof.
  intros Hs.
  destruct applyDecay_cases as [[_ ->] | [_ [f [[Hf0 Hf1] ->]]]].
  - exact Hs.
  - apply Math_round_nonneg. nra.
Qed.

Lemma applyDecay_below_cap (cap : Z) :
  0 <= IZR cap -> score <= IZR cap ->
  applyDecay score lastActivityAt now <= IZR cap.
Proof.
  intros Hc Hs.
  destruct applyDecay_cases as [[_ ->] | [_ [f [[Hf0 Hf1] ->]]]].
  - exact Hs.
  - apply Math_round_le_int.
    destruct (Rle_dec 0 score) as [Hpos | Hneg]; nra.
Qed.

Lemma applyDecay_integer :
  is_integer score -> is_integer (applyDecay score lastActivityAt now).
Proof.
  intros Hs.
  destruct applyDecay_cases as [[_ ->] | [_ [f [_ ->]]]].
  - exact Hs.
  - apply Math_round_integer.
Qed.

Lemma applyDecay_le_score :
  is_integer score -> 0 <= score ->
  applyDecay score lastActivityAt now <= score.
Proof.
  intros [z Hz] Hs.
  destruct applyDecay_cases as [[_ ->] | [_ [f [[Hf0 Hf1] ->]]]].
  - lra.
  - rewrite Hz at 2. apply Math_round_le_int. nra.
Qed.

End Decay.

(** ** The component scorer, dimension by dimension *)

Section ScorerBounds.

Variable data : AgentPlatformData.t.

Lemma calcPlatformActivity_below_cap : calcPlatformActivity data <= 150.
Proof. apply Math_min_le_r. Qed.

Lemma calcSkillVerifications_below_cap : calcSkillVerifications data <= 150.
Proof.
  unfold calcSkillVerifications.
  destruct (Req_dec_T (AgentPlatformData.totalSkills data) 0).
  - lra.
  - apply Math_min_le_r.
Qed.

Lemma calcEndorsements_below_cap : calcEndorsements data <= 150.
Proof. apply Math_min_le_r. Qed.

Lemma calcReviews_below_cap : calcReviews data <= 150.
Proof. apply Math_min_le_r. Qed.

Lemma calcDeploymentMetrics_below_cap : calcDeploymentMetrics data <= 150.
Proof. apply Math_min_le_r. Qed.

Lemma calcOnchainReputation_below_cap : calcOnchainReputation data <= 100.
Proof. apply Math_min_le_r. Qed.

Lemma calcSecurityAudit_below_cap : calcSecurityAudit data <= 100.
Proof.
  unfold calcSecurityAudit.
  destruct (negb (AgentPlatformData.securityAuditPassed data)).
  - lra.
  - apply Math_min_le_r.
Qed.

Lemma calcAccountAge_below_cap : calcAccountAge data <= 50.
Proof. apply Math_min_le_r. Qed.

Lemma calcPlatformActivity_nonneg :
  0 <= AgentPlatformData.denMessages data ->
  0 <= AgentPlatformData.dmsSent data ->
  0 <= AgentPlatformData.promptResponses data ->
  0 <= calcPlatformActivity data.
Proof.
  intros H1 H2 H3. unfold calcPlatformActivity, WEIGHTS.platformActivity.
  apply Math_min_glb; [| lra].
  apply Math_round_nonneg.
  pose proof (capped_term_nonneg _ 100 60 H1).
  pose proof (capped_term_nonneg _ 50 40 H2).
  pose proof (capped_term_nonneg _ 10 50 H3).
  lra.
Qed.

Lemma calcSkillVerifications_nonneg :
  0 <= AgentPlatformData.verifiedSkills data ->
  0 <= calcSkillVerifications data.
Proof.
  intros H1. unfold calcSkillVerifications, WEIGHTS.skillVerifications.
  destruct (Req_dec_T (AgentPlatformData.totalSkills data) 0); [lra |].
  apply Math_min_glb; [| lra].
  apply Math_round_nonneg.
  pose proof (capped_term_nonneg _ 10 50 H1).
  assert (Hmax : 0 < Math_max (AgentPlatformData.totalSkills data) 1).
  { pose proof (Rmax_r (AgentPlatformData.totalSkills data) 1).
    unfold Math_max. lra. }
  pose proof (ratio_term_nonneg _ _ 100 H1 Hmax).
  lra.
Qed.

Lemma calcEndorsements_nonneg :
  0 <= AgentPlatformData.endorsementsReceived data ->
  0 <= AgentPlatformData.endorserAvgTrust data ->
  0 <= calcEndorsements data.
Proof.
  intros H1 H2. unfold calcEndorsements, WEIGHTS.endorsements.
  apply Math_min_glb; [| lra].
  apply Math_round_nonneg.
  pose proof (capped_term_nonneg _ 20 75 H1).
  lra.
Qed.

Lemma calcReviews_nonneg :
  0 <= AgentPlatformData.reviewCount data ->
  0 <= AgentPlatformData.avgReviewScore data ->
  0 <= calcReviews data.
Proof.
  intros H1 H2. unfold calcReviews, WEIGHTS.reviews.
  apply Math_min_glb; [| lra].
  apply Math_round_nonneg.
  pose proof (capped_term_nonneg _ 15 75 H1).
  lra.
Qed.

Lemma calcDeploymentMetrics_nonneg :
  0 <= AgentPlatformData.uptimePercent data ->
  0 <= AgentPlatformData.responseQuality data ->
  0 <= calcDeploymentMetrics data.
Proof.
  intros H1 H2. unfold calcDeploymentMetrics, WEIGHTS.deploymentMetrics.
  apply Math_min_glb; [| lra].
  apply Math_round_nonneg.
  lra.
Qed.

Lemma calcOnchainReputation_nonneg :
  0 <= AgentPlatformData.walletAge data ->
  0 <= AgentPlatformData.txCount data ->
  0 <= calcOnchainReputation data.
Proof.
  intros H1 H2. unfold calcOnchainReputation, WEIGHTS.onchainReputation.
  apply Math_min_glb; [| lra].
  apply Math_round_nonneg.
  pose proof (capped_term_nonneg _ 365 50 H1).
  pose proof (capped_term_nonneg _ 100 50 H2).
  lra.
Qed.

Lemma calcSecurityAudit_nonneg :
  0 <= AgentPlatformData.auditScore data ->
  0 <= calcSecurityAudit data.
Proof.
  intros H1. unfold calcSecurityAudit, WEIGHTS.securityAudit.
  destruct (negb (AgentPlatformData.securityAuditPassed data)); [lra |].
  apply Math_min_glb; lra.
Qed.

Lemma calcAccountAge_nonneg :
  0 <= AgentPlatformData.accountAgeDays data ->
  0 <= calcAccountAge data.
Proof.
  intros H1. unfold calcAccountAge, WEIGHTS.accountAge.
  apply Math_min_glb; [| lra].
  apply Math_round_nonneg.
  pose proof (capped_term_nonneg _ 180 50 H1).
  lra.
Qed.

(** Seven of the eight scorers round before they cap, so they return
    integers; [calcSecurityAudit] passes [auditScore] through. *)
Lemma calcPlatformActivity_integer : is_integer (calcPlatformActivity data).
Proof.
  apply Math_min_integer; [apply Math_round_integer | apply is_integer_IZR].
Qed.

Lemma calcSkillVerifications_integer :
  is_integer (calcSkillVerifications data).
Proof.
  unfold calcSkillVerifications.
  destruct (Req_dec_T (AgentPlatformData.totalSkills data) 0).
  - apply is_integer_IZR.
  - apply Math_min_integer; [apply Math_round_integer | apply is_integer_IZR].
Qed.

Lemma calcEndorsements_integer : is_integer (calcEndorsements data).
Proof.
  apply Math_min_integer; [apply Math_round_integer | apply is_integer_IZR].
Qed.

Lemma calcReviews_integer : is_integer (calcReviews data).
Proof.
  apply Math_min_integer; [apply Math_round_integer | apply is_integer_IZR].
Qed.

Lemma calcDeploymentMetrics_integer : is_integer (calcDeploymentMetrics data).
Proof.
  apply Math_min_integer; [apply Math_round_integer | apply is_integer_IZR].
Qed.

Lemma calcOnchainReputation_integer : is_integer (calcOnchainReputation data).
Proof.
  apply Math_min_integer; [apply Math_round_integer | apply is_integer_IZR].
Qed.

Lemma calcAccountAge_integer : is_integer (calcAccountAge data).
Proof.
  apply Math_min_integer; [apply Math_round_integer | apply is_integer_IZR].
Qed.

Lemma calcSecurityAudit_integer :
  is_integer (AgentPlatformData.auditScore data) ->
  is_integer (calcSecurityAudit data).
Proof.
  intros Ha. unfold calcSecurityAudit.
  destruct (negb (AgentPlatformData.securityAuditPassed data)).
  - apply is_integer_IZR.
  - apply Math_min_integer; [exact Ha | apply is_integer_IZR].
Qed.

End ScorerBounds.

(** ** What the assembler stores in each field *)

Section Assembler.

Variables (now : R) (data : AgentPlatformData.t).

Let last := AgentPlatformData.lastActivityAt data.

Lemma attested_platformActivity :
  TrustAttestation.platformActivity (calculateTrustScore now data)
  = applyDecay (calcPlatformActivity data) last now.
Proof. reflexivity. Qed.

Lemma attested_skillVerifications :
  TrustAttestation.skillVerifications (calculateTrustScore now data)
  = calcSkillVerifications data.
Proof. reflexivity. Qed.

Lemma attested_endorsements :
  TrustAttestation.endorsements (calculateTrustScore now data)
  = applyDecay (calcEndorsements data) last now.
Proof. reflexivity. Qed.

Lemma attested_reviews :
  TrustAttestation.reviews (calculateTrustScore now data)
  = applyDecay (calcReviews data) last now.
Proof. reflexivity. Qed.

Lemma attested_deploymentMetrics :
  TrustAttestation.deploymentMetrics (calculateTrustScore now data)
  = applyDecay (calcDeploymentMetrics data) last now.
Proof. reflexivity. Qed.

Lemma attested_onchainReputation :
  TrustAttestation.onchainReputation (calculateTrustScore now data)
  = calcOnchainReputation data.
Proof. reflexivity. Qed.

Lemma attested_securityAudit :
  TrustAttestation.securityAudit (calculateTrustScore now data)
  = calcSecurityAudit data.
Proof. reflexivity. Qed.

Lemma attested_accountAge :
  TrustAttestation.accountAge (calculateTrustScore now data)
  = calcAccountAge data.
Proof. reflexivity. Qed.

Lemma attested_lastActivityAt :
  TrustAttestation.lastActivityAt (calculateTrustScore now data) = last.
Proof. reflexivity. Qed.

Lemma attested_attestedAt :
  TrustAttestation.attestedAt (calculateTrustScore now data) = now.
Proof. reflexivity. Qed.

(** The [reduce] over [Object.values(decayed)] adds the eight stored
    sub-scores. *)
Lemma attested_trustScore :
  TrustAttestation.trustScore (calculateTrustScore now data)
  = sub_score_sum (calculateTrustScore now data).
Proof.
  unfold sub_score_sum.
  rewrite attested_platformActivity, attested_skillVerifications,
    attested_endorsements, attested_reviews, attested_deploymentMetrics,
    attested_onchainReputation, attested_securityAudit, attested_accountAge.
  change (TrustAttestation.trustScore (calculateTrustScore now data))
    with (0 + applyDecay (calcPlatformActivity data) last now
          + calcSkillVerifications data
          + applyDecay (calcEndorsements data) last now
          + applyDecay (calcReviews data) last now
          + applyDecay (calcDeploymentMetrics data) last now
          + calcOnchainReputation data
          + calcSecurityAudit data
          + calcAccountAge data).
  lra.
Qed.

Lemma attested_below_caps :
  sub_scores_below_caps (calculateTrustScore now data).
Proof.
  unfold sub_scores_below_caps.
  rewrite attested_platformActivity, attested_skillVerifications,
    attested_endorsements, attested_reviews, attested_deploymentMetrics,
    attested_onchainReputation, attested_securityAudit, attested_accountAge.
  repeat split.
  - apply (applyDecay_below_cap _ _ _ 150); [lra |].
    apply calcPlatformActivity_below_cap.
  - apply calcSkillVerifications_below_cap.
  - apply (applyDecay_below_cap _ _ _ 150); [lra |].
    apply calcEndorsements_below_cap.
  - apply (applyDecay_below_cap _ _ _ 150); [lra |].
    apply calcReviews_below_cap.
  - apply (applyDecay_below_cap _ _ _ 150); [lra |].
    apply calcDeploymentMetrics_below_cap.
  - apply calcOnchainReputation_below_cap.
  - apply calcSecurityAudit_below_cap.
  - apply calcAccountAge_below_cap.
Qed.

Lemma attested_nonneg :
  nonneg_input data ->
  0 <= TrustAttestation.platformActivity (calculateTrustScore now data) /\
  0 <= TrustAttestation.skillVerifications (calculateTrustScore now data) /\
  0 <= TrustAttestation.endorsements (calculateTrustScore now data) /\
  0 <= TrustAttestation.reviews (calculateTrustScore now data) /\
  0 <= TrustAttestation.deploymentMetrics (calculateTrustScore now data) /\
  0 <= TrustAttestation.onchainReputation (calculateTrustScore now data) /\
  0 <= TrustAttestation.securityAudit (calculateTrustScore now data) /\
  0 <= TrustAttestation.accountAge (calculateTrustScore now data).
Proof.
  intros (Hm & Hd & Hp & Hv & Ht & He & Het & Hr & Hrs & Hu & Hq & Hw & Htx
          & Ha & Hage & Hl).
  rewrite attested_platformActivity, attested_skillVerifications,
    attested_endorsements, attested_reviews, attested_deploymentMetrics,
    attested_onchainReputation, attested_securityAudit, attested_accountAge.
  repeat split.
  - now apply applyDecay_nonneg, calcPlatformActivity_nonneg.
  - now apply calcSkillVerifications_nonneg.
  - now apply applyDecay_nonneg, calcEndorsements_nonneg.
  - now apply applyDecay_nonneg, calcReviews_nonneg.
  - now apply applyDecay_nonneg, calcDeploymentMetrics_nonneg.
  - now apply calcOnchainReputation_nonneg.
  - now apply calcSecurityAudit_nonneg.
  - now apply calcAccountAge_nonneg.
Qed.

Lemma attested_in_range :
  nonneg_input data -> sub_scores_in_range (calculateTrustScore now data).
Proof.
  intros Hnn.
  pose proof attested_below_caps as Hcaps.
  pose proof (attested_nonneg Hnn) as Hlow.
  unfold sub_scores_in_range, sub_scores_below_caps in *.
  intuition.
Qed.

End Assembler.

(** ** The query-time re-derivation, case by case *)

Section Query.

Variables (now : R) (attestation : TrustAttestation.t).

Let last := TrustAttestation.lastActivityAt attestation.

Lemma getCurrentScore_not_elapsed :
  elapsedMonths last now <= 0 ->
  getCurrentScore now attestation
  = mkCurrentScore (TrustAttestation.trustScore attestation) 0.
Proof.
  intros Hle. unfold getCurrentScore. fold last.
  unfold elapsedMonths in Hle.
  destruct (Rle_dec ((now - last) / MONTH_MS) 0) as [_ | Hpos].
  - reflexivity.
  - contradiction.
Qed.

Lemma getCurrentScore_elapsed :
  0 < elapsedMonths last now ->
  getCurrentScore now attestation
  = let decayedActivity :=
      Math_round (activity_subtotal attestation
                  * Math_pow (1 - DECAY_RATE_MONTHLY)
                             (elapsedMonths last now)) in
    let current :=
      TrustAttestation.trustScore attestation
      - activity_subtotal attestation + decayedActivity in
    mkCurrentScore current
      (TrustAttestation.trustScore attestation - current).
Proof.
  intros Hpos. unfold getCurrentScore. fold last.
  unfold elapsedMonths in *.
  destruct (Rle_dec ((now - last) / MONTH_MS) 0) as [Hle | _].
  - lra.
  - reflexivity.
Qed.

Lemma getCurrentScore_cases :
  (elapsedMonths last now <= 0 /\
   getCurrentScore now attestation
   = mkCurrentScore (TrustAttestation.trustScore attestation) 0) \/
  (0 < elapsedMonths last now /\
   exists f : R, 0 < f < 1 /\
     currentScore (getCurrentScore now attestation)
     = TrustAttestation.trustScore attestation
       - activity_subtotal attestation
       + Math_round (activity_subtotal attestation * f) /\
     decayApplied (getCurrentScore now attestation)
     = activity_subtotal attestation
       - Math_round (activity_subtotal attestation * f)).
Proof.
  destruct (Rle_dec (elapsedMonths last now) 0) as [Hle | Hgt].
  - left. split; [exact Hle | now apply getCurrentScore_not_elapsed].
  - right. apply Rnot_le_lt in Hgt. split; [exact Hgt |].
    exists (Math_pow (1 - DECAY_RATE_MONTHLY) (elapsedMonths last now)).
    split; [now apply decayFactor_bounds |].
    rewrite (getCurrentScore_elapsed Hgt). cbv zeta.
    unfold currentScore, decayApplied. split; [reflexivity | lra].
Qed.

End Query.

(** ** Evaluating the engine on given numbers *)

Lemma decay_base : 1 - DECAY_RATE_MONTHLY = 95 / 100.
Proof. unfold DECAY_RATE_MONTHLY. lra. Qed.

Lemma decayFactor_one_month :
  Math_pow (1 - DECAY_RATE_MONTHLY) 1 = 95 / 100.
Proof.
  unfold Math_pow. rewrite Rpower_1; unfold DECAY_RATE_MONTHLY; lra.
Qed.

Lemma decayFactor_two_months :
  Math_pow (1 - DECAY_RATE_MONTHLY) 2 = 9025 / 10000.
Proof.
  change 2 with (INR 2). rewrite decayFactor_whole_months. lra.
Qed.

(** Rounds a literal: [round_to z] closes [Math_round x = IZR z] when
    linear arithmetic places [x] in the half-open unit interval around [z]. *)
Ltac round_to z := apply (Math_round_eq z); lra.

(** Reduces [Math_min] and [Math_max] on literals. *)
Ltac min_literals :=
  repeat match goal with
  | |- context [Math_min ?x ?y] =>
      first [ rewrite (Math_min_left x y) by lra
            | rewrite (Math_min_right x y) by lra ]
  end.

(** ** The engine on the demo agent *)

Lemma optimus_will_valid : valid_input optimus_will.
Proof.
  unfold valid_input, nonneg_input, ratios_in_range, optimus_will, demo_now.
  cbn [AgentPlatformData.denMessages AgentPlatformData.dmsSent
       AgentPlatformData.promptResponses AgentPlatformData.verifiedSkills
       AgentPlatformData.totalSkills AgentPlatformData.endorsementsReceived
       AgentPlatformData.endorserAvgTrust AgentPlatformData.reviewCount
       AgentPlatformData.avgReviewScore AgentPlatformData.uptimePercent
       AgentPlatformData.responseQuality AgentPlatformData.walletAge
       AgentPlatformData.txCount AgentPlatformData.auditScore
       AgentPlatformData.accountAgeDays AgentPlatformData.lastActivityAt].
  repeat split; lra.
Qed.

(** The specification's platform-activity example: 150 messages, 80 direct
    messages and 12 prompt responses score the full 150. *)
Example calcPlatformActivity_optimus_will :
  calcPlatformActivity optimus_will = 150.
Proof.
  unfold calcPlatformActivity, WEIGHTS.platformActivity, optimus_will.
  cbn [AgentPlatformData.denMessages AgentPlatformData.dmsSent
       AgentPlatformData.promptResponses].
  rewrite (Math_min_right (150 / 100) 1) by lra.
  rewrite (Math_min_right (80 / 50) 1) by lra.
  rewrite (Math_min_right (12 / 10) 1) by lra.
  replace (Math_round (1 * 60 + 1 * 40 + 1 * 50)) with 150
    by (symmetry; round_to 150%Z).
  apply Math_min_left. lra.
Qed.

(** ** The claims *)

(** C1.  For every input whose numeric fields are non-negative and whose
    ratios lie within their documented ranges, each of the eight sub-scores
    of the attestation [calculateTrustScore] returns lies within its declared
    closed interval, and [trustScore] lies in [0,1000] and is the sum of the
    eight stored (post-decay) sub-scores. *)
Theorem calculateTrustScore_scores_bounded
    (now : R) (data : AgentPlatformData.t) :
  valid_input data ->
  sub_scores_in_range (calculateTrustScore now data) /\
  0 <= TrustAttestation.trustScore (calculateTrustScore now data) <= 1000 /\
  TrustAttestation.trustScore (calculateTrustScore now data)
  = sub_score_sum (calculateTrustScore now data).
Proof.
  intros [Hnn _].
  pose proof (attested_in_range now data Hnn) as Hr.
  pose proof (attested_trustScore now data) as Hsum.
  split; [exact Hr |]. split; [| exact Hsum].
  rewrite Hsum. unfold sub_score_sum.
  unfold sub_scores_in_range in Hr. lra.
Qed.

Lemma calculateTrustScore_scores_bounded_witness :
  sub_scores_in_range (calculateTrustScore demo_now optimus_will) /\
  0 <= TrustAttestation.trustScore (calculateTrustScore demo_now optimus_will)
    <= 1000 /\
  TrustAttestation.trustScore (calculateTrustScore demo_now optimus_will)
  = sub_score_sum (calculateTrustScore demo_now optimus_will).
Proof.
  apply (calculateTrustScore_scores_bounded demo_now optimus_will).
  exact optimus_will_valid.
Defined.

(** C7.  When the elapsed time since [lastActivityAt] is not positive,
    [getCurrentScore] returns the stored [trustScore] unchanged and reports
    no decay. *)
Theorem getCurrentScore_no_elapsed_time
    (now : R) (attestation : TrustAttestation.t) :
  elapsedMonths (TrustAttestation.lastActivityAt attestation) now <= 0 ->
  currentScore (getCurrentScore now attestation)
  = TrustAttestation.trustScore attestation /\
  decayApplied (getCurrentScore now attestation) = 0.
Proof.
  intros Hle. rewrite (getCurrentScore_not_elapsed now attestation Hle).
  split; reflexivity.
Qed.

Lemma getCurrentScore_no_elapsed_time_witness :
  currentScore (getCurrentScore 0 stored_500_200) = 500 /\
  decayApplied (getCurrentScore 0 stored_500_200) = 0.
Proof.
  apply (getCurrentScore_no_elapsed_time 0 stored_500_200).
  unfold elapsedMonths, MONTH_MS, stored_500_200.
  cbn [TrustAttestation.lastActivityAt]. lra.
Defined.

(** The specification's query example: a stored score of 500 with activity
    subtotal 200, queried two whole months after the last activity, gives
    181 for the decayed activity, hence 481 with 19 of decay. *)
Example getCurrentScore_after_two_months
    (now : R) (attestation : TrustAttestation.t) :
  TrustAttestation.trustScore attestation = 500 ->
  activity_subtotal attestation = 200 ->
  elapsedMonths (TrustAttestation.lastActivityAt attestation) now = 2 ->
  currentScore (getCurrentScore now attestation) = 481 /\
  decayApplied (getCurrentScore now attestation) = 19.
Proof.
  intros Ht Ha Hm.
  assert (Hpos : 0 < elapsedMonths
                       (TrustAttestation.lastActivityAt attestation) now)
    by (rewrite Hm; lra).
  rewrite (getCurrentScore_elapsed now attestation Hpos). cbv zeta.
  cbn [currentScore decayApplied].
  rewrite Ht, Ha, Hm, decayFactor_two_months.
  replace (Math_round (200 * (9025 / 10000))) with 181
    by (symmetry; round_to 181%Z).
  split; lra.
Qed.

(** C10.  The outputs of [getCurrentScore] depend only on [trustScore], the
    four stored activity sub-scores, [lastActivityAt] and the reference time:
    two attestations that agree on those fields get the same current score
    and the same decay applied, whatever their other fields hold. *)
Theorem getCurrentScore_reads_only_query_fields
    (now : R) (a b : TrustAttestation.t) :
  same_query_fields a b ->
  currentScore (getCurrentScore now a) = currentScore (getCurrentScore now b)
  /\ decayApplied (getCurrentScore now a)
     = decayApplied (getCurrentScore now b).
Proof.
  intros (Ht & Hp & He & Hr & Hd & Hl).
  unfold getCurrentScore.
  rewrite Ht, Hp, He, Hr, Hd, Hl.
  split; reflexivity.
Qed.

Lemma getCurrentScore_reads_only_query_fields_witness :
  currentScore (getCurrentScore (2 * MONTH_MS) stored_500_200)
  = currentScore (getCurrentScore (2 * MONTH_MS) stored_500_200_other)
  /\ decayApplied (getCurrentScore (2 * MONTH_MS) stored_500_200)
     = decayApplied (getCurrentScore (2 * MONTH_MS) stored_500_200_other).
Proof.
  apply (getCurrentScore_reads_only_query_fields
           (2 * MONTH_MS) stored_500_200 stored_500_200_other).
  unfold same_query_fields, stored_500_200, stored_500_200_other.
  repeat split; reflexivity.
Defined.

(** C8.  The [skillVerifications] sub-score is 0 whenever [totalSkills] is
    0, whatever [verifiedSkills] is; otherwise it is
    [round (verifiedSkills / max (totalSkills, 1) * 100
            + min (verifiedSkills / 10, 1) * 50)] capped at 150; six verified
    skills out of six give 130. *)
Theorem skillVerifications_formula (now : R) (data : AgentPlatformData.t) :
  let total := AgentPlatformData.totalSkills data in
  let verified := AgentPlatformData.verifiedSkills data in
  let score :=
    TrustAttestation.skillVerifications (calculateTrustScore now data) in
  (total = 0 -> score = 0) /\
  (total <> 0 ->
   score = Math_min (Math_round (verified / Math_max total 1 * 100
                                 + Math_min (verified / 10) 1 * 50)) 150) /\
  (total = 6 -> verified = 6 -> score = 130).
Proof.
  intros total verified score. subst score.
  rewrite attested_skillVerifications.
  unfold calcSkillVerifications, WEIGHTS.skillVerifications.
  fold total verified.
  destruct (Req_dec_T total 0) as [Hz | Hnz].
  - repeat split.
    + contradiction.
    + intros H6. rewrite H6 in Hz. lra.
  - repeat split.
    + intros Hz. contradiction.
    + intros H6 Hv. rewrite H6, Hv.
      unfold Math_max. rewrite (Rmax_left 6 1) by lra.
      rewrite (Math_min_left (6 / 10) 1) by lra.
      replace (Math_round (6 / 6 * 100 + 6 / 10 * 50)) with 130
        by (symmetry; round_to 130%Z).
      apply Math_min_left. lra.
Qed.

Lemma skillVerifications_formula_witness :
  TrustAttestation.skillVerifications (calculateTrustScore 0 unaudited_90) = 0
  /\ TrustAttestation.skillVerifications
       (calculateTrustScore demo_now optimus_will) = 130.
Proof.
  split.
  - apply (proj1 (skillVerifications_formula 0 unaudited_90)).
    reflexivity.
  - apply (proj2 (proj2 (skillVerifications_formula demo_now optimus_will)));
      reflexivity.
Defined.

(** C9.  The [securityAudit] sub-score is 0 whenever the audit-passed flag
    is false, whatever [auditScore] is; when the flag is true it is
    [min (auditScore, 100)]. *)
Theorem securityAudit_formula (now : R) (data : AgentPlatformData.t) :
  let score := TrustAttestation.securityAudit (calculateTrustScore now data) in
  (AgentPlatformData.securityAuditPassed data = false -> score = 0) /\
  (AgentPlatformData.securityAuditPassed data = true ->
   score = Math_min (AgentPlatformData.auditScore data) 100).
Proof.
  intros score. subst score.
  rewrite attested_securityAudit.
  unfold calcSecurityAudit, WEIGHTS.securityAudit.
  split; intros Hflag; rewrite Hflag; reflexivity.
Qed.

Lemma securityAudit_formula_witness :
  TrustAttestation.securityAudit (calculateTrustScore 0 unaudited_90) = 0 /\
  TrustAttestation.securityAudit (calculateTrustScore 0 audited_80)
  = Math_min 80 100.
Proof.
  split.
  - apply (proj1 (securityAudit_formula 0 unaudited_90)). reflexivity.
  - apply (proj2 (securityAudit_formula 0 audited_80)). reflexivity.
Defined.

(** C6.  Decay never increases a score and is monotonically non-increasing
    in elapsed time: for a non-negative integer starting score and elapsed
    times [0 < elapsed1 < elapsed2], the score decayed over [elapsed2] is at
    most the score decayed over [elapsed1], and both are at most the
    starting score. *)
Theorem applyDecay_monotone (score lastActivityAt now1 now2 : R) :
  is_integer score -> 0 <= score ->
  0 < elapsedMonths lastActivityAt now1 ->
  elapsedMonths lastActivityAt now1 < elapsedMonths lastActivityAt now2 ->
  applyDecay score lastActivityAt now2 <= applyDecay score lastActivityAt now1
  /\ applyDecay score lastActivityAt now1 <= score
  /\ applyDecay score lastActivityAt now2 <= score.
Proof.
  intros Hint Hs H1 H12.
  split; [| split; now apply applyDecay_le_score].
  assert (H2 : 0 < elapsedMonths lastActivityAt now2) by lra.
  rewrite (applyDecay_elapsed score lastActivityAt now1)
    by (apply elapsedMonths_pos; exact H1).
  rewrite (applyDecay_elapsed score lastActivityAt now2)
    by (apply elapsedMonths_pos; exact H2).
  apply Math_round_le.
  pose proof (decayFactor_decreasing _ _ H12) as Hf.
  nra.
Qed.

Lemma applyDecay_monotone_witness :
  applyDecay 100 0 (2 * MONTH_MS) <= applyDecay 100 0 MONTH_MS
  /\ applyDecay 100 0 MONTH_MS <= 100
  /\ applyDecay 100 0 (2 * MONTH_MS) <= 100.
Proof.
  apply (applyDecay_monotone 100 0 MONTH_MS (2 * MONTH_MS)).
  - exists 100%Z. reflexivity.
  - lra.
  - unfold elapsedMonths, MONTH_MS. lra.
  - unfold elapsedMonths, MONTH_MS. lra.
Defined.

(** ** The engine on the sample inputs *)

(** Unfolds the scorers on a literal input down to arithmetic on literals. *)
Ltac scorers_on input :=
  unfold calcPlatformActivity, calcSkillVerifications, calcEndorsements,
    calcReviews, calcDeploymentMetrics, calcOnchainReputation,
    calcSecurityAudit, calcAccountAge,
    WEIGHTS.platformActivity, WEIGHTS.skillVerifications,
    WEIGHTS.endorsements, WEIGHTS.reviews, WEIGHTS.deploymentMetrics,
    WEIGHTS.onchainReputation, WEIGHTS.securityAudit, WEIGHTS.accountAge,
    input;
  cbn [AgentPlatformData.denMessages AgentPlatformData.dmsSent
       AgentPlatformData.promptResponses AgentPlatformData.verifiedSkills
       AgentPlatformData.totalSkills AgentPlatformData.endorsementsReceived
       AgentPlatformData.endorserAvgTrust AgentPlatformData.reviewCount
       AgentPlatformData.avgReviewScore AgentPlatformData.uptimePercent
       AgentPlatformData.responseQuality AgentPlatformData.walletAge
       AgentPlatformData.txCount AgentPlatformData.securityAuditPassed
       AgentPlatformData.auditScore AgentPlatformData.accountAgeDays
       AgentPlatformData.lastActivityAt negb].

(** Closes [scorer input = IZR z] for a scorer that rounds then caps. *)
Ltac scorer_is input z :=
  scorers_on input; min_literals;
  rewrite (Math_round_eq z) by lra;
  min_literals; lra.

Lemma totalSkills_zero_scores_zero (data : AgentPlatformData.t) :
  AgentPlatformData.totalSkills data = 0 -> calcSkillVerifications data = 0.
Proof.
  intros Hz. unfold calcSkillVerifications.
  destruct (Req_dec_T (AgentPlatformData.totalSkills data) 0);
    [reflexivity | contradiction].
Qed.

Lemma elapsed_one_month : elapsedMonths 0 MONTH_MS = 1.
Proof. unfold elapsedMonths, MONTH_MS. lra. Qed.

Lemma applyDecay_one_month (score : R) :
  applyDecay score 0 MONTH_MS = Math_round (score * (95 / 100)).
Proof.
  rewrite applyDecay_elapsed by apply MONTH_MS_pos.
  now rewrite elapsed_one_month, decayFactor_one_month.
Qed.

Lemma applyDecay_same_instant (score t : R) : applyDecay score t t = score.
Proof. apply applyDecay_not_elapsed. lra. Qed.

(** [stale_messenger], attested one month after its last activity: the raw
    platform-activity score 100 is stored as 95 and nothing else scores. *)
Lemma stale_messenger_attested :
  let a := calculateTrustScore MONTH_MS stale_messenger in
  TrustAttestation.platformActivity a = 95 /\
  TrustAttestation.endorsements a = 0 /\
  TrustAttestation.reviews a = 0 /\
  TrustAttestation.deploymentMetrics a = 0 /\
  TrustAttestation.trustScore a = 95 /\
  TrustAttestation.lastActivityAt a = 0 /\
  TrustAttestation.attestedAt a = MONTH_MS.
Proof.
  intros a.
  assert (Hpa : TrustAttestation.platformActivity a = 95).
  { subst a. rewrite attested_platformActivity.
    replace (calcPlatformActivity stale_messenger) with 100
      by (symmetry; scorer_is stale_messenger 100%Z).
    change (AgentPlatformData.lastActivityAt stale_messenger) with 0.
    rewrite applyDecay_one_month. round_to 95%Z. }
  assert (Hen : TrustAttestation.endorsements a = 0).
  { subst a. rewrite attested_endorsements.
    replace (calcEndorsements stale_messenger) with 0
      by (symmetry; scorer_is stale_messenger 0%Z).
    change (AgentPlatformData.lastActivityAt stale_messenger) with 0.
    rewrite applyDecay_one_month. round_to 0%Z. }
  assert (Hre : TrustAttestation.reviews a = 0).
  { subst a. rewrite attested_reviews.
    replace (calcReviews stale_messenger) with 0
      by (symmetry; scorer_is stale_messenger 0%Z).
    change (AgentPlatformData.lastActivityAt stale_messenger) with 0.
    rewrite applyDecay_one_month. round_to 0%Z. }
  assert (Hde : TrustAttestation.deploymentMetrics a = 0).
  { subst a. rewrite attested_deploymentMetrics.
    replace (calcDeploymentMetrics stale_messenger) with 0
      by (symmetry; scorer_is stale_messenger 0%Z).
    change (AgentPlatformData.lastActivityAt stale_messenger) with 0.
    rewrite applyDecay_one_month. round_to 0%Z. }
  assert (Hsk : TrustAttestation.skillVerifications a = 0).
  { subst a. rewrite attested_skillVerifications.
    now apply totalSkills_zero_scores_zero. }
  assert (Hon : TrustAttestation.onchainReputation a = 0).
  { subst a. rewrite attested_onchainReputation.
    scorer_is stale_messenger 0%Z. }
  assert (Hse : TrustAttestation.securityAudit a = 0).
  { subst a. rewrite attested_securityAudit. reflexivity. }
  assert (Hac : TrustAttestation.accountAge a = 0).
  { subst a. rewrite attested_accountAge.
    scorer_is stale_messenger 0%Z. }
  repeat split; try assumption.
  subst a. rewrite attested_trustScore. unfold sub_score_sum.
  rewrite Hpa, Hen, Hre, Hde, Hsk, Hon, Hse, Hac. lra.
Qed.

(** Queried at its own issuance time, that attestation is decayed a second
    time: 95 becomes [round (95 * 0.95) = 90]. *)
Lemma stale_messenger_queried :
  let a := calculateTrustScore MONTH_MS stale_messenger in
  let r := getCurrentScore (TrustAttestation.attestedAt a) a in
  TrustAttestation.trustScore a = 95 /\
  currentScore r = 90 /\ decayApplied r = 5.
Proof.
  intros a r.
  destruct stale_messenger_attested
    as (Hpa & Hen & Hre & Hde & Hts & Hla & Hat).
  fold a in Hpa, Hen, Hre, Hde, Hts, Hla, Hat.
  assert (Hm : elapsedMonths (TrustAttestation.lastActivityAt a)
                             (TrustAttestation.attestedAt a) = 1).
  { rewrite Hla, Hat. apply elapsed_one_month. }
  assert (Hpos : 0 < elapsedMonths (TrustAttestation.lastActivityAt a)
                                   (TrustAttestation.attestedAt a))
    by (rewrite Hm; lra).
  assert (Hact : activity_subtotal a = 95).
  { unfold activity_subtotal. rewrite Hpa, Hen, Hre, Hde. lra. }
  assert (Hr : r = mkCurrentScore 90 5).
  { subst r. rewrite (getCurrentScore_elapsed _ _ Hpos). cbv zeta.
    rewrite Hm, decayFactor_one_month, Hact, Hts.
    replace (Math_round (95 * (95 / 100))) with 90
      by (symmetry; round_to 90%Z).
    f_equal; lra. }
  rewrite Hr. split; [exact Hts | split; reflexivity].
Qed.

Lemma negative_counts_attested :
  TrustAttestation.platformActivity (calculateTrustScore 0 negative_counts)
  = -60.
Proof.
  rewrite attested_platformActivity.
  change (AgentPlatformData.lastActivityAt negative_counts) with 0.
  rewrite applyDecay_same_instant.
  scorers_on negative_counts. min_literals.
  rewrite (Math_round_eq (-60)%Z) by lra.
  min_literals. lra.
Qed.

Lemma fractional_audit_attested :
  TrustAttestation.trustScore (calculateTrustScore 0 fractional_audit)
  = 111 / 2.
Proof.
  rewrite attested_trustScore. unfold sub_score_sum.
  rewrite attested_platformActivity, attested_skillVerifications,
    attested_endorsements, attested_reviews, attested_deploymentMetrics,
    attested_onchainReputation, attested_securityAudit, attested_accountAge.
  change (AgentPlatformData.lastActivityAt fractional_audit) with 0.
  rewrite !applyDecay_same_instant.
  rewrite (totalSkills_zero_scores_zero fractional_audit) by reflexivity.
  replace (calcPlatformActivity fractional_audit) with 0
    by (symmetry; scorer_is fractional_audit 0%Z).
  replace (calcEndorsements fractional_audit) with 0
    by (symmetry; scorer_is fractional_audit 0%Z).
  replace (calcReviews fractional_audit) with 0
    by (symmetry; scorer_is fractional_audit 0%Z).
  replace (calcDeploymentMetrics fractional_audit) with 0
    by (symmetry; scorer_is fractional_audit 0%Z).
  replace (calcOnchainReputation fractional_audit) with 0
    by (symmetry; scorer_is fractional_audit 0%Z).
  replace (calcAccountAge fractional_audit) with 0
    by (symmetry; scorer_is fractional_audit 0%Z).
  replace (calcSecurityAudit fractional_audit) with (111 / 2).
  - lra.
  - scorers_on fractional_audit. min_literals. reflexivity.
Qed.

Lemma half_not_integer : ~ is_integer (111 / 2).
Proof.
  intros [z Hz].
  assert (H : IZR 111 = IZR (2 * z)) by (rewrite mult_IZR; lra).
  apply eq_IZR in H. lia.
Qed.

(** Rounding a non-negative integer scaled by a factor below 1 never
    exceeds it and never goes below 0. *)
Lemma Math_round_shrink (x f : R) :
  is_integer x -> 0 <= x -> 0 < f < 1 -> 0 <= Math_round (x * f) <= x.
Proof.
  intros [z Hz] Hx [Hf0 Hf1]. split.
  - apply Math_round_nonneg. nra.
  - rewrite Hz at 2. apply Math_round_le_int. nra.
Qed.

(** The engine's own attestations satisfy the data model's invariant as
    soon as the input is non-negative and the audit score is an integer. *)
Lemma calculateTrustScore_well_formed (now : R) (data : AgentPlatformData.t) :
  nonneg_input data ->
  is_integer (AgentPlatformData.auditScore data) ->
  well_formed (calculateTrustScore now data).
Proof.
  intros Hnn Haudit. unfold well_formed.
  split; [now apply attested_in_range |].
  rewrite attested_platformActivity, attested_skillVerifications,
    attested_endorsements, attested_reviews, attested_deploymentMetrics,
    attested_onchainReputation, attested_securityAudit, attested_accountAge.
  repeat split.
  - apply applyDecay_integer, calcPlatformActivity_integer.
  - apply calcSkillVerifications_integer.
  - apply applyDecay_integer, calcEndorsements_integer.
  - apply applyDecay_integer, calcReviews_integer.
  - apply applyDecay_integer, calcDeploymentMetrics_integer.
  - apply calcOnchainReputation_integer.
  - now apply calcSecurityAudit_integer.
  - apply calcAccountAge_integer.
  - apply attested_trustScore.
Qed.

Lemma elapsed_two_months : elapsedMonths 0 (2 * MONTH_MS) = 2.
Proof. unfold elapsedMonths, MONTH_MS. lra. Qed.

Lemma applyDecay_two_months (score : R) :
  applyDecay score 0 (2 * MONTH_MS) = Math_round (score * (9025 / 10000)).
Proof.
  rewrite applyDecay_elapsed by (pose proof MONTH_MS_pos; lra).
  now rewrite elapsed_two_months, decayFactor_two_months.
Qed.

(** [stale_messenger], attested afresh two months after its last activity:
    the raw platform-activity score 100 is stored as
    [round (100 * 0.9025) = 90], and that is the whole score. *)
Lemma stale_messenger_attested_two_months :
  TrustAttestation.trustScore
    (calculateTrustScore (2 * MONTH_MS) stale_messenger) = 90.
Proof.
  rewrite attested_trustScore. unfold sub_score_sum.
  rewrite attested_platformActivity, attested_skillVerifications,
    attested_endorsements, attested_reviews, attested_deploymentMetrics,
    attested_onchainReputation, attested_securityAudit, attested_accountAge.
  change (AgentPlatformData.lastActivityAt stale_messenger) with 0.
  rewrite !applyDecay_two_months.
  rewrite (totalSkills_zero_scores_zero stale_messenger) by reflexivity.
  replace (calcPlatformActivity stale_messenger) with 100
    by (symmetry; scorer_is stale_messenger 100%Z).
  replace (calcEndorsements stale_messenger) with 0
    by (symmetry; scorer_is stale_messenger 0%Z).
  replace (calcReviews stale_messenger) with 0
    by (symmetry; scorer_is stale_messenger 0%Z).
  replace (calcDeploymentMetrics stale_messenger) with 0
    by (symmetry; scorer_is stale_messenger 0%Z).
  replace (calcOnchainReputation stale_messenger) with 0
    by (symmetry; scorer_is stale_messenger 0%Z).
  replace (calcAccountAge stale_messenger) with 0
    by (symmetry; scorer_is stale_messenger 0%Z).
  replace (calcSecurityAudit stale_messenger) with 0 by reflexivity.
  replace (Math_round (100 * (9025 / 10000))) with 90
    by (symmetry; round_to 90%Z).
  replace (Math_round (0 * (9025 / 10000))) with 0
    by (symmetry; round_to 0%Z).
  lra.
Qed.

(** C3 does not hold of the code.  The two decay strategies should agree
    at the moment of issuance; they do not once the last activity lies in
    the past.  [stale_messenger], attested one month after its last
    activity, is issued with [trustScore] 95; [getCurrentScore] at that very
    issuance time returns 90 with 5 of decay, because it decays from
    [lastActivityAt] a score that was already decayed over that same
    month.  90 is what [calculateTrustScore] itself gives only two months
    after the last activity. *)
Theorem issuance_query_decays_twice :
  let a := calculateTrustScore MONTH_MS stale_messenger in
  let r := getCurrentScore (TrustAttestation.attestedAt a) a in
  TrustAttestation.trustScore a = 95 /\
  currentScore r = 90 /\
  decayApplied r = 5 /\
  TrustAttestation.trustScore
    (calculateTrustScore (2 * MONTH_MS) stale_messenger) = 90.
Proof.
  intros a r.
  pose proof stale_messenger_queried as Hq. cbv zeta in Hq.
  destruct Hq as (Hts & Hc & Hd).
  subst r a. repeat split; try assumption.
  apply stale_messenger_attested_two_months.
Qed.

(** C4 as the specification states it fails.  A message count of -100
    yields the platform-activity sub-score -60, below the declared
    interval [0,150]: the caps bound from above only. *)
Lemma negative_count_leaves_interval :
  ~ sub_scores_in_range (calculateTrustScore 0 negative_counts).
Proof.
  intros [[Hlow _] _].
  rewrite negative_counts_attested in Hlow. lra.
Qed.

(** C4, amended.  For every input whatsoever [calculateTrustScore] returns
    an attestation in which no sub-score exceeds its declared ceiling.  Each
    sub-score is moreover at least 0, hence within its declared closed
    interval, as soon as the raw fields its own scorer reads are
    non-negative, however far above their documented scale they are; the
    security-audit score also whenever the audit did not pass.  A negative
    raw field is not clamped from below, and it can take only its own
    dimension below 0. *)
Theorem calculateTrustScore_caps_absorb
    (now : R) (data : AgentPlatformData.t) :
  let a := calculateTrustScore now data in
  sub_scores_below_caps a /\
  (0 <= AgentPlatformData.denMessages data ->
   0 <= AgentPlatformData.dmsSent data ->
   0 <= AgentPlatformData.promptResponses data ->
   0 <= TrustAttestation.platformActivity a) /\
  (0 <= AgentPlatformData.verifiedSkills data ->
   0 <= TrustAttestation.skillVerifications a) /\
  (0 <= AgentPlatformData.endorsementsReceived data ->
   0 <= AgentPlatformData.endorserAvgTrust data ->
   0 <= TrustAttestation.endorsements a) /\
  (0 <= AgentPlatformData.reviewCount data ->
   0 <= AgentPlatformData.avgReviewScore data ->
   0 <= TrustAttestation.reviews a) /\
  (0 <= AgentPlatformData.uptimePercent data ->
   0 <= AgentPlatformData.responseQuality data ->
   0 <= TrustAttestation.deploymentMetrics a) /\
  (0 <= AgentPlatformData.walletAge data ->
   0 <= AgentPlatformData.txCount data ->
   0 <= TrustAttestation.onchainReputation a) /\
  (AgentPlatformData.securityAuditPassed data = false \/
   0 <= AgentPlatformData.auditScore data ->
   0 <= TrustAttestation.securityAudit a) /\
  (0 <= AgentPlatformData.accountAgeDays data ->
   0 <= TrustAttestation.accountAge a).
Proof.
  intros a. subst a.
  split; [apply attested_below_caps |].
  rewrite attested_platformActivity, attested_skillVerifications,
    attested_endorsements, attested_reviews, attested_deploymentMetrics,
    attested_onchainReputation, attested_securityAudit, attested_accountAge.
  repeat split.
  - intros H1 H2 H3. now apply applyDecay_nonneg, calcPlatformActivity_nonneg.
  - intros H1. now apply calcSkillVerifications_nonneg.
  - intros H1 H2. now apply applyDecay_nonneg, calcEndorsements_nonneg.
  - intros H1 H2. now apply applyDecay_nonneg, calcReviews_nonneg.
  - intros H1 H2. now apply applyDecay_nonneg, calcDeploymentMetrics_nonneg.
  - intros H1 H2. now apply calcOnchainReputation_nonneg.
  - intros [Hflag | Haudit].
    + unfold calcSecurityAudit. rewrite Hflag. cbn [negb]. lra.
    + now apply calcSecurityAudit_nonneg.
  - intros H1. now apply calcAccountAge_nonneg.
Qed.

(** At [negative_counts] itself, whose message count is -100, the seven
    other sub-scores stay within their intervals. *)
Lemma calculateTrustScore_caps_absorb_witness :
  let a := calculateTrustScore 0 negative_counts in
  0 <= TrustAttestation.skillVerifications a <= 150 /\
  0 <= TrustAttestation.endorsements a <= 150 /\
  0 <= TrustAttestation.reviews a <= 150 /\
  0 <= TrustAttestation.deploymentMetrics a <= 150 /\
  0 <= TrustAttestation.onchainReputation a <= 100 /\
  0 <= TrustAttestation.securityAudit a <= 100 /\
  0 <= TrustAttestation.accountAge a <= 50.
Proof.
  intros a.
  destruct (calculateTrustScore_caps_absorb 0 negative_counts)
    as ((_ & Csk & Cen & Cre & Cde & Con & Cse & Cac)
        & _ & Lsk & Len & Lre & Lde & Lon & Lse & Lac).
  fold a in Csk, Cen, Cre, Cde, Con, Cse, Cac, Lsk, Len, Lre, Lde, Lon,
    Lse, Lac.
  unfold negative_counts in Lsk, Len, Lre, Lde, Lon, Lse, Lac.
  cbn [AgentPlatformData.verifiedSkills
       AgentPlatformData.endorsementsReceived
       AgentPlatformData.endorserAvgTrust AgentPlatformData.reviewCount
       AgentPlatformData.avgReviewScore AgentPlatformData.uptimePercent
       AgentPlatformData.responseQuality AgentPlatformData.walletAge
       AgentPlatformData.txCount AgentPlatformData.securityAuditPassed
       AgentPlatformData.auditScore AgentPlatformData.accountAgeDays]
    in Lsk, Len, Lre, Lde, Lon, Lse, Lac.
  repeat split; try assumption.
  - apply Lsk. lra.
  - apply Len; lra.
  - apply Lre; lra.
  - apply Lde; lra.
  - apply Lon; lra.
  - apply Lse. left. reflexivity.
  - apply Lac. lra.
Defined.

(** C5 as the specification states it fails.  The attestation the engine
    issues for a passed audit scored 55.5 has [trustScore] 55.5, and
    [getCurrentScore] returns it as the current score: not an integer. *)
Lemma fractional_current_score :
  let r := getCurrentScore 0 (calculateTrustScore 0 fractional_audit) in
  ~ (is_integer (currentScore r) /\ 0 <= currentScore r <= 1000 /\
     is_integer (decayApplied r) /\ 0 <= decayApplied r).
Proof.
  intros r [Hint _]. apply half_not_integer.
  rewrite <- fractional_audit_attested.
  assert (Hle : elapsedMonths
                  (TrustAttestation.lastActivityAt
                     (calculateTrustScore 0 fractional_audit)) 0 <= 0).
  { rewrite attested_lastActivityAt.
    unfold elapsedMonths, MONTH_MS, fractional_audit.
    cbn [AgentPlatformData.lastActivityAt]. lra. }
  subst r. rewrite (getCurrentScore_not_elapsed _ _ Hle) in Hint.
  exact Hint.
Qed.

(** A record whose [trustScore] is not the sum of its sub-scores can also
    leave the range: composite 0 with platform activity 100, one month on,
    gives the current score -5. *)
Example inconsistent_record_goes_negative :
  currentScore
    (getCurrentScore MONTH_MS
       (TrustAttestation.mk "x" "X" "w" 0 100 0 0 0 0 0 0 0 BASIC 0
          "moltbotden-oracle" 1 0 5))
  = -5.
Proof.
  rewrite getCurrentScore_elapsed.
  - cbv zeta. unfold activity_subtotal.
    cbn [TrustAttestation.lastActivityAt TrustAttestation.trustScore
         TrustAttestation.platformActivity TrustAttestation.endorsements
         TrustAttestation.reviews TrustAttestation.deploymentMetrics
         currentScore].
    rewrite elapsed_one_month, decayFactor_one_month.
    replace (Math_round ((100 + 0 + 0 + 0) * (95 / 100))) with 95
      by (symmetry; round_to 95%Z).
    lra.
  - cbn [TrustAttestation.lastActivityAt]. rewrite elapsed_one_month. lra.
Qed.

(** On an attestation within the declared intervals whose [trustScore] is
    the sum of its sub-scores, the activity subtotal lies between 0 and
    [trustScore], and [trustScore] is at most 1000. *)
Lemma in_range_sum_bounds (a : TrustAttestation.t) :
  sub_scores_in_range a ->
  TrustAttestation.trustScore a = sub_score_sum a ->
  0 <= activity_subtotal a <= TrustAttestation.trustScore a /\
  TrustAttestation.trustScore a <= 1000.
Proof.
  intros Hr Hsum. unfold sub_scores_in_range in Hr.
  rewrite Hsum. unfold activity_subtotal, sub_score_sum. lra.
Qed.

(** The activity subtotal the engine stores is an integer for every input:
    the four activity scorers round, and so does decay. *)
Lemma attested_activity_integer (now : R) (data : AgentPlatformData.t) :
  is_integer (activity_subtotal (calculateTrustScore now data)).
Proof.
  unfold activity_subtotal.
  rewrite attested_platformActivity, attested_endorsements,
    attested_reviews, attested_deploymentMetrics.
  repeat apply is_integer_plus; apply applyDecay_integer.
  - apply calcPlatformActivity_integer.
  - apply calcEndorsements_integer.
  - apply calcReviews_integer.
  - apply calcDeploymentMetrics_integer.
Qed.

(** C5, amended.  For every attestation whose stored activity subtotal is
    an integer between 0 and its [trustScore], with [trustScore] at most
    1000, and every reference time, [getCurrentScore] returns a current
    score in [0,1000] and an integer, non-negative decay applied; the
    current score is an integer exactly when [trustScore] is.  Every
    attestation within the declared intervals whose [trustScore] is the sum
    of its sub-scores and whose activity sub-scores are integers is such an
    attestation, whether or not its security-audit score is an integer. *)
Theorem getCurrentScore_result_range
    (now : R) (attestation : TrustAttestation.t) :
  is_integer (activity_subtotal attestation) ->
  0 <= activity_subtotal attestation
    <= TrustAttestation.trustScore attestation ->
  TrustAttestation.trustScore attestation <= 1000 ->
  let r := getCurrentScore now attestation in
  0 <= currentScore r <= 1000 /\
  is_integer (decayApplied r) /\
  0 <= decayApplied r /\
  (is_integer (currentScore r)
   <-> is_integer (TrustAttestation.trustScore attestation)).
Proof.
  intros Iact [Hact Hle] Htop r. subst r.
  destruct (getCurrentScore_cases now attestation)
    as [[_ Heq] | [_ [f [Hf [Hcur Hdec]]]]].
  - rewrite Heq. cbn [currentScore decayApplied].
    repeat split; try lra; try (intros H; exact H).
    apply (is_integer_IZR 0).
  - rewrite Hcur, Hdec.
    pose proof (Math_round_shrink _ _ Iact Hact Hf) as [Hlo Hhi].
    pose proof (Math_round_integer (activity_subtotal attestation * f)) as Ir.
    assert (Idec : is_integer
                     (activity_subtotal attestation
                      - Math_round (activity_subtotal attestation * f)))
      by now apply is_integer_minus.
    repeat split; try lra; try exact Idec.
    + intros Icur.
      replace (TrustAttestation.trustScore attestation)
        with (TrustAttestation.trustScore attestation
              - activity_subtotal attestation
              + Math_round (activity_subtotal attestation * f)
              + (activity_subtotal attestation
                 - Math_round (activity_subtotal attestation * f)))
        by lra.
      now apply is_integer_plus.
    + intros Its.
      replace (TrustAttestation.trustScore attestation
               - activity_subtotal attestation
               + Math_round (activity_subtotal attestation * f))
        with (TrustAttestation.trustScore attestation
              - (activity_subtotal attestation
                 - Math_round (activity_subtotal attestation * f)))
        by lra.
      now apply is_integer_minus.
Qed.

(** At the attestation issued for the audit scored 55.5 itself, queried a
    month later. *)
Lemma getCurrentScore_result_range_witness :
  let r := getCurrentScore MONTH_MS (calculateTrustScore 0 fractional_audit) in
  0 <= currentScore r <= 1000 /\
  is_integer (decayApplied r) /\
  0 <= decayApplied r /\
  (is_integer (currentScore r)
   <-> is_integer
         (TrustAttestation.trustScore
            (calculateTrustScore 0 fractional_audit))).
Proof.
  assert (Hnn : nonneg_input fractional_audit).
  { unfold nonneg_input, fractional_audit.
    cbn [AgentPlatformData.denMessages AgentPlatformData.dmsSent
         AgentPlatformData.promptResponses AgentPlatformData.verifiedSkills
         AgentPlatformData.totalSkills AgentPlatformData.endorsementsReceived
         AgentPlatformData.endorserAvgTrust AgentPlatformData.reviewCount
         AgentPlatformData.avgReviewScore AgentPlatformData.uptimePercent
         AgentPlatformData.responseQuality AgentPlatformData.walletAge
         AgentPlatformData.txCount AgentPlatformData.auditScore
         AgentPlatformData.accountAgeDays AgentPlatformData.lastActivityAt].
    repeat split; lra. }
  destruct (in_range_sum_bounds (calculateTrustScore 0 fractional_audit)
              (attested_in_range 0 fractional_audit Hnn)
              (attested_trustScore 0 fractional_audit))
    as [Hact Htop].
  exact (getCurrentScore_result_range MONTH_MS
           (calculateTrustScore 0 fractional_audit)
           (attested_activity_integer 0 fractional_audit) Hact Htop).
Defined.

(** ** The pooled decay is monotone too *)

(** What C6 says of [applyDecay] carries over to the query-time
    re-derivation when the stored activity subtotal is a non-negative
    integer. *)
Lemma getCurrentScore_monotone
    (now1 now2 : R) (attestation : TrustAttestation.t) :
  well_formed_activity attestation ->
  0 < elapsedMonths (TrustAttestation.lastActivityAt attestation) now1 ->
  elapsedMonths (TrustAttestation.lastActivityAt attestation) now1
  < elapsedMonths (TrustAttestation.lastActivityAt attestation) now2 ->
  currentScore (getCurrentScore now2 attestation)
  <= currentScore (getCurrentScore now1 attestation)
  /\ currentScore (getCurrentScore now1 attestation)
     <= TrustAttestation.trustScore attestation.
Proof.
  intros [Hint Hge] H1 H12.
  assert (H2 : 0 < elapsedMonths
                     (TrustAttestation.lastActivityAt attestation) now2)
    by lra.
  rewrite (getCurrentScore_elapsed now1 attestation H1).
  rewrite (getCurrentScore_elapsed now2 attestation H2).
  cbv zeta. cbn [currentScore].
  pose proof (decayFactor_decreasing _ _ H12) as Hf.
  pose proof (decayFactor_bounds _ H1) as Hb1.
  pose proof (Math_round_shrink _ _ Hint Hge Hb1) as [_ Hhi].
  split; [| lra].
  apply Rplus_le_compat_l, Math_round_le. nra.
Qed.

(** ** Beyond the specification: the scorer *)

Section Monotone.

Lemma Math_min_le_compat (x y z : R) : x <= y -> Math_min x z <= Math_min y z.
Proof. apply Rle_min_compat_r. Qed.

Lemma capped_term_le (x y c w : R) :
  x <= y -> 0 < c -> 0 <= w ->
  Math_min (x / c) 1 * w <= Math_min (y / c) 1 * w.
Proof.
  intros Hxy Hc Hw.
  apply Rmult_le_compat_r; [exact Hw |].
  apply Math_min_le_compat.
  apply Rmult_le_compat_r; [| exact Hxy].
  left. now apply Rinv_0_lt_compat.
Qed.

Lemma ratio_term_le (x y c w : R) :
  x <= y -> 0 < c -> 0 <= w -> x / c * w <= y / c * w.
Proof.
  intros Hxy Hc Hw.
  apply Rmult_le_compat_r; [exact Hw |].
  apply Rmult_le_compat_r; [| exact Hxy].
  left. now apply Rinv_0_lt_compat.
Qed.

(** A rounded and capped sum grows with the sum. *)
Lemma round_cap_le (x y cap : R) :
  x <= y -> Math_min (Math_round x) cap <= Math_min (Math_round y) cap.
Proof. intros Hxy. now apply Math_min_le_compat, Math_round_le. Qed.

Variables d1 d2 : AgentPlatformData.t.

Hypothesis Hle : metrics_le d1 d2.

Lemma calcPlatformActivity_le :
  calcPlatformActivity d1 <= calcPlatformActivity d2.
Proof.
  destruct Hle as (Hm & Hd & Hp & _).
  unfold calcPlatformActivity. apply round_cap_le.
  pose proof (capped_term_le _ _ 100 60 Hm).
  pose proof (capped_term_le _ _ 50 40 Hd).
  pose proof (capped_term_le _ _ 10 50 Hp).
  lra.
Qed.

Lemma calcSkillVerifications_le :
  calcSkillVerifications d1 <= calcSkillVerifications d2.
Proof.
  destruct Hle as (_ & _ & _ & Hv & Ht & _).
  unfold calcSkillVerifications. rewrite Ht.
  destruct (Req_dec_T (AgentPlatformData.totalSkills d2) 0); [lra |].
  apply round_cap_le.
  assert (Hmax : 0 < Math_max (AgentPlatformData.totalSkills d2) 1).
  { pose proof (Rmax_r (AgentPlatformData.totalSkills d2) 1).
    unfold Math_max. lra. }
  pose proof (ratio_term_le _ _ _ 100 Hv Hmax).
  pose proof (capped_term_le _ _ 10 50 Hv).
  lra.
Qed.

Lemma calcEndorsements_le : calcEndorsements d1 <= calcEndorsements d2.
Proof.
  destruct Hle as (_ & _ & _ & _ & _ & Hc & Hq & _).
  unfold calcEndorsements. apply round_cap_le.
  pose proof (capped_term_le _ _ 20 75 Hc).
  lra.
Qed.

Lemma calcReviews_le : calcReviews d1 <= calcReviews d2.
Proof.
  destruct Hle as (_ & _ & _ & _ & _ & _ & _ & Hc & Hq & _).
  unfold calcReviews. apply round_cap_le.
  pose proof (capped_term_le _ _ 15 75 Hc).
  lra.
Qed.

Lemma calcDeploymentMetrics_le :
  calcDeploymentMetrics d1 <= calcDeploymentMetrics d2.
Proof.
  destruct Hle as (_ & _ & _ & _ & _ & _ & _ & _ & _ & Hu & Hq & _).
  unfold calcDeploymentMetrics. apply round_cap_le. lra.
Qed.

Lemma calcOnchainReputation_le :
  calcOnchainReputation d1 <= calcOnchainReputation d2.
Proof.
  destruct Hle
    as (_ & _ & _ & _ & _ & _ & _ & _ & _ & _ & _ & Hw & Ht & _).
  unfold calcOnchainReputation. apply round_cap_le.
  pose proof (capped_term_le _ _ 365 50 Hw).
  pose proof (capped_term_le _ _ 100 50 Ht).
  lra.
Qed.

Lemma calcSecurityAudit_le : calcSecurityAudit d1 <= calcSecurityAudit d2.
Proof.
  destruct Hle
    as (_ & _ & _ & _ & _ & _ & _ & _ & _ & _ & _ & _ & _ & Hf & Ha & _).
  unfold calcSecurityAudit. rewrite Hf.
  destruct (negb (AgentPlatformData.securityAuditPassed d2)); [lra |].
  now apply Math_min_le_compat.
Qed.

Lemma calcAccountAge_le : calcAccountAge d1 <= calcAccountAge d2.
Proof.
  destruct Hle
    as (_ & _ & _ & _ & _ & _ & _ & _ & _ & _ & _ & _ & _ & _ & _ & Ha & _).
  unfold calcAccountAge, WEIGHTS.accountAge. apply round_cap_le.
  pose proof (capped_term_le _ _ 180 50 Ha).
  lra.
Qed.

End Monotone.

(** Decay keeps the order of two scores measured over the same time. *)
Lemma applyDecay_le_compat (s1 s2 lastActivityAt now : R) :
  s1 <= s2 ->
  applyDecay s1 lastActivityAt now <= applyDecay s2 lastActivityAt now.
Proof.
  intros Hs. unfold applyDecay.
  destruct (Rle_dec ((now - lastActivityAt) / MONTH_MS) 0) as [Hle | Hgt].
  - exact Hs.
  - apply Math_round_le. apply Rnot_le_lt in Hgt.
    pose proof (decayFactor_bounds _ Hgt) as [Hf _].
    nra.
Qed.

(** Reporting more never scores less: raising any metric, for the same
    number of listed skills, audit flag, last activity and clock, lowers no
    sub-score of the attestation and does not lower [trustScore]. *)
Theorem calculateTrustScore_monotone_in_metrics
    (now : R) (d1 d2 : AgentPlatformData.t) :
  metrics_le d1 d2 ->
  let a1 := calculateTrustScore now d1 in
  let a2 := calculateTrustScore now d2 in
  TrustAttestation.platformActivity a1 <= TrustAttestation.platformActivity a2
  /\ TrustAttestation.skillVerifications a1
     <= TrustAttestation.skillVerifications a2
  /\ TrustAttestation.endorsements a1 <= TrustAttestation.endorsements a2
  /\ TrustAttestation.reviews a1 <= TrustAttestation.reviews a2
  /\ TrustAttestation.deploymentMetrics a1
     <= TrustAttestation.deploymentMetrics a2
  /\ TrustAttestation.onchainReputation a1
     <= TrustAttestation.onchainReputation a2
  /\ TrustAttestation.securityAudit a1 <= TrustAttestation.securityAudit a2
  /\ TrustAttestation.accountAge a1 <= TrustAttestation.accountAge a2
  /\ TrustAttestation.trustScore a1 <= TrustAttestation.trustScore a2.
Proof.
  intros Hle a1 a2.
  assert (Hlast : AgentPlatformData.lastActivityAt d1
                  = AgentPlatformData.lastActivityAt d2)
    by (unfold metrics_le in Hle; tauto).
  assert (Hpa : TrustAttestation.platformActivity a1
                <= TrustAttestation.platformActivity a2).
  { subst a1 a2. rewrite !attested_platformActivity, Hlast.
    now apply applyDecay_le_compat, calcPlatformActivity_le. }
  assert (Hsk : TrustAttestation.skillVerifications a1
                <= TrustAttestation.skillVerifications a2).
  { subst a1 a2. rewrite !attested_skillVerifications.
    now apply calcSkillVerifications_le. }
  assert (Hen : TrustAttestation.endorsements a1
                <= TrustAttestation.endorsements a2).
  { subst a1 a2. rewrite !attested_endorsements, Hlast.
    now apply applyDecay_le_compat, calcEndorsements_le. }
  assert (Hre : TrustAttestation.reviews a1 <= TrustAttestation.reviews a2).
  { subst a1 a2. rewrite !attested_reviews, Hlast.
    now apply applyDecay_le_compat, calcReviews_le. }
  assert (Hde : TrustAttestation.deploymentMetrics a1
                <= TrustAttestation.deploymentMetrics a2).
  { subst a1 a2. rewrite !attested_deploymentMetrics, Hlast.
    now apply applyDecay_le_compat, calcDeploymentMetrics_le. }
  assert (Hon : TrustAttestation.onchainReputation a1
                <= TrustAttestation.onchainReputation a2).
  { subst a1 a2. rewrite !attested_onchainReputation.
    now apply calcOnchainReputation_le. }
  assert (Hse : TrustAttestation.securityAudit a1
                <= TrustAttestation.securityAudit a2).
  { subst a1 a2. rewrite !attested_securityAudit.
    now apply calcSecurityAudit_le. }
  assert (Hac : TrustAttestation.accountAge a1
                <= TrustAttestation.accountAge a2).
  { subst a1 a2. rewrite !attested_accountAge.
    now apply calcAccountAge_le. }
  repeat split; try assumption.
  subst a1 a2. rewrite !attested_trustScore. unfold sub_score_sum. lra.
Qed.

Lemma calculateTrustScore_monotone_in_metrics_witness :
  TrustAttestation.trustScore (calculateTrustScore MONTH_MS blank_agent)
  <= TrustAttestation.trustScore (calculateTrustScore MONTH_MS stale_messenger).
Proof.
  apply (calculateTrustScore_monotone_in_metrics
           MONTH_MS blank_agent stale_messenger).
  unfold metrics_le, blank_agent, stale_messenger.
  cbn [AgentPlatformData.denMessages AgentPlatformData.dmsSent
       AgentPlatformData.promptResponses AgentPlatformData.verifiedSkills
       AgentPlatformData.totalSkills AgentPlatformData.endorsementsReceived
       AgentPlatformData.endorserAvgTrust AgentPlatformData.reviewCount
       AgentPlatformData.avgReviewScore AgentPlatformData.uptimePercent
       AgentPlatformData.responseQuality AgentPlatformData.walletAge
       AgentPlatformData.txCount AgentPlatformData.securityAuditPassed
       AgentPlatformData.auditScore AgentPlatformData.accountAgeDays
       AgentPlatformData.lastActivityAt].
  repeat split; lra.
Defined.

(** Whatever the input, out of range or negative, and whatever the clock,
    the composite score never exceeds 1000. *)
Theorem trustScore_at_most_1000 (now : R) (data : AgentPlatformData.t) :
  TrustAttestation.trustScore (calculateTrustScore now data) <= 1000.
Proof.
  rewrite attested_trustScore. unfold sub_score_sum.
  pose proof (attested_below_caps now data) as Hcaps.
  unfold sub_scores_below_caps in Hcaps. lra.
Qed.

(** The four decay-immune sub-scores depend on nothing but the seven raw
    fields their scorers read: neither the clock, nor the last activity, nor
    any activity metric or identity field changes them. *)
Theorem durable_scores_ignore_time_and_activity
    (now1 now2 : R) (d1 d2 : AgentPlatformData.t) :
  same_durable_metrics d1 d2 ->
  let a1 := calculateTrustScore now1 d1 in
  let a2 := calculateTrustScore now2 d2 in
  TrustAttestation.skillVerifications a1
  = TrustAttestation.skillVerifications a2 /\
  TrustAttestation.onchainReputation a1
  = TrustAttestation.onchainReputation a2 /\
  TrustAttestation.securityAudit a1 = TrustAttestation.securityAudit a2 /\
  TrustAttestation.accountAge a1 = TrustAttestation.accountAge a2.
Proof.
  intros (Hv & Ht & Hw & Htx & Hf & Ha & Hage) a1 a2. subst a1 a2.
  rewrite !attested_skillVerifications, !attested_onchainReputation,
    !attested_securityAudit, !attested_accountAge.
  unfold calcSkillVerifications, calcOnchainReputation, calcSecurityAudit,
    calcAccountAge.
  rewrite Hv, Ht, Hw, Htx, Hf, Ha, Hage.
  repeat split; reflexivity.
Qed.

Lemma durable_scores_ignore_time_and_activity_witness :
  let a1 := calculateTrustScore demo_now optimus_will in
  let a2 := calculateTrustScore (2 * MONTH_MS) optimus_will_silent in
  TrustAttestation.skillVerifications a1
  = TrustAttestation.skillVerifications a2 /\
  TrustAttestation.onchainReputation a1
  = TrustAttestation.onchainReputation a2 /\
  TrustAttestation.securityAudit a1 = TrustAttestation.securityAudit a2 /\
  TrustAttestation.accountAge a1 = TrustAttestation.accountAge a2.
Proof.
  apply (durable_scores_ignore_time_and_activity
           demo_now (2 * MONTH_MS) optimus_will optimus_will_silent).
  unfold same_durable_metrics, optimus_will, optimus_will_silent.
  repeat split; reflexivity.
Defined.

(** An agent with no metric at all scores 0 in every dimension and in
    total, at any clock and for any last activity: the zero counts raise no
    division problem and decay leaves 0 at 0. *)
Theorem zero_metrics_score_zero (now : R) (data : AgentPlatformData.t) :
  zero_metrics data ->
  let a := calculateTrustScore now data in
  TrustAttestation.platformActivity a = 0 /\
  TrustAttestation.skillVerifications a = 0 /\
  TrustAttestation.endorsements a = 0 /\
  TrustAttestation.reviews a = 0 /\
  TrustAttestation.deploymentMetrics a = 0 /\
  TrustAttestation.onchainReputation a = 0 /\
  TrustAttestation.securityAudit a = 0 /\
  TrustAttestation.accountAge a = 0 /\
  TrustAttestation.trustScore a = 0.
Proof.
  intros (Hm & Hd & Hp & Hv & Ht & He & Het & Hr & Hrs & Hu & Hq & Hw & Htx
          & Hau & Hage) a.
  assert (Hzero : forall last, applyDecay 0 last now = 0).
  { intros last.
    destruct (applyDecay_cases 0 last now)
      as [[_ ->] | [_ [f [_ ->]]]]; [reflexivity |].
    rewrite Rmult_0_l. apply (Math_round_IZR 0). }
  assert (Hround : Math_round 0 = 0) by apply (Math_round_IZR 0).
  assert (Hmin : forall cap, 0 <= cap -> Math_min 0 cap = 0)
    by (intros cap Hc; now apply Math_min_left).
  assert (Hterm : forall c w, Math_min (0 / c) 1 * w = 0).
  { intros c w. unfold Rdiv. rewrite Rmult_0_l.
    rewrite (Math_min_left 0 1) by lra. apply Rmult_0_l. }
  assert (Hpa : calcPlatformActivity data = 0).
  { unfold calcPlatformActivity, WEIGHTS.platformActivity.
    rewrite Hm, Hd, Hp, !Hterm.
    replace (0 + 0 + 0) with 0 by lra. rewrite Hround. apply Hmin. lra. }
  assert (Hen : calcEndorsements data = 0).
  { unfold calcEndorsements, WEIGHTS.endorsements.
    rewrite He, Het, Hterm.
    replace (0 + 0 / 1000 * 75) with 0 by lra.
    rewrite Hround. apply Hmin. lra. }
  assert (Hre : calcReviews data = 0).
  { unfold calcReviews, WEIGHTS.reviews.
    rewrite Hr, Hrs, Hterm.
    replace (0 + 0 / 5 * 75) with 0 by lra.
    rewrite Hround. apply Hmin. lra. }
  assert (Hde : calcDeploymentMetrics data = 0).
  { unfold calcDeploymentMetrics, WEIGHTS.deploymentMetrics.
    rewrite Hu, Hq.
    replace (0 / 100 * 75 + 0 / 100 * 75) with 0 by lra.
    rewrite Hround. apply Hmin. lra. }
  assert (Hon : calcOnchainReputation data = 0).
  { unfold calcOnchainReputation, WEIGHTS.onchainReputation.
    rewrite Hw, Htx, !Hterm.
    replace (0 + 0) with 0 by lra. rewrite Hround. apply Hmin. lra. }
  assert (Hse : calcSecurityAudit data = 0).
  { unfold calcSecurityAudit, WEIGHTS.securityAudit.
    destruct (AgentPlatformData.securityAuditPassed data); cbn [negb].
    - rewrite (Hau eq_refl). apply Hmin. lra.
    - reflexivity. }
  assert (Hac : calcAccountAge data = 0).
  { unfold calcAccountAge, WEIGHTS.accountAge.
    rewrite Hage, Hterm, Hround. apply Hmin. lra. }
  assert (Hsk : calcSkillVerifications data = 0)
    by now apply totalSkills_zero_scores_zero.
  subst a.
  rewrite attested_trustScore. unfold sub_score_sum.
  rewrite attested_platformActivity, attested_skillVerifications,
    attested_endorsements, attested_reviews, attested_deploymentMetrics,
    attested_onchainReputation, attested_securityAudit, attested_accountAge.
  rewrite Hpa, Hen, Hre, Hde, Hon, Hse, Hac, Hsk, !Hzero.
  repeat split; try reflexivity. lra.
Qed.

Lemma zero_metrics_score_zero_witness :
  TrustAttestation.trustScore (calculateTrustScore MONTH_MS blank_agent) = 0.
Proof.
  apply (zero_metrics_score_zero MONTH_MS blank_agent).
  unfold zero_metrics, blank_agent.
  cbn [AgentPlatformData.securityAuditPassed].
  repeat split; reflexivity.
Defined.

(** A rounded sum that reaches the cap scores the cap. *)
Lemma round_cap_reached (x : R) (cap : Z) :
  IZR cap <= x -> Math_min (Math_round x) (IZR cap) = IZR cap.
Proof.
  intros Hx. apply Math_min_right. now apply Math_round_ge_int.
Qed.

Lemma capped_term_full (x c w : R) :
  0 < c -> c <= x -> Math_min (x / c) 1 * w = w.
Proof.
  intros Hc Hx.
  rewrite Math_min_right; [lra |].
  apply (Rmult_le_reg_r c); [exact Hc |].
  unfold Rdiv. rewrite Rmult_assoc, Rinv_l by lra. lra.
Qed.

(** The ceiling of 1000 is reached: when every metric is at or above its
    saturation point, the audit passed, and no time has elapsed since the
    last activity, every sub-score is at its cap and [trustScore] is 1000. *)
Theorem saturated_input_scores_1000 (now : R) (data : AgentPlatformData.t) :
  saturated_input data ->
  now <= AgentPlatformData.lastActivityAt data ->
  let a := calculateTrustScore now data in
  TrustAttestation.platformActivity a = 150 /\
  TrustAttestation.skillVerifications a = 150 /\
  TrustAttestation.endorsements a = 150 /\
  TrustAttestation.reviews a = 150 /\
  TrustAttestation.deploymentMetrics a = 150 /\
  TrustAttestation.onchainReputation a = 100 /\
  TrustAttestation.securityAudit a = 100 /\
  TrustAttestation.accountAge a = 50 /\
  TrustAttestation.trustScore a = 1000.
Proof.
  intros (Hm & Hd & Hp & Hv & [Ht0 Htv] & He & Het & Hr & Hrs & Hu & Hq
          & Hw & Htx & Hflag & Hau & Hage) Hfresh a.
  assert (Hpa : calcPlatformActivity data = 150).
  { unfold calcPlatformActivity, WEIGHTS.platformActivity.
    rewrite !capped_term_full by lra.
    apply (round_cap_reached _ 150). lra. }
  assert (Hsk : calcSkillVerifications data = 150).
  { unfold calcSkillVerifications, WEIGHTS.skillVerifications.
    destruct (Req_dec_T (AgentPlatformData.totalSkills data) 0); [lra |].
    rewrite capped_term_full by lra.
    apply (round_cap_reached _ 150).
    assert (Hmax : 0 < Math_max (AgentPlatformData.totalSkills data) 1
                   <= AgentPlatformData.verifiedSkills data).
    { unfold Math_max. split.
      - pose proof (Rmax_r (AgentPlatformData.totalSkills data) 1). lra.
      - apply Rmax_lub; lra. }
    assert (Hratio : 1 <= AgentPlatformData.verifiedSkills data
                          / Math_max (AgentPlatformData.totalSkills data) 1).
    { apply (Rmult_le_reg_r
               (Math_max (AgentPlatformData.totalSkills data) 1));
        [lra |].
      unfold Rdiv. rewrite Rmult_assoc, Rinv_l by lra. lra. }
    lra. }
  assert (Hen : calcEndorsements data = 150).
  { unfold calcEndorsements, WEIGHTS.endorsements.
    rewrite capped_term_full by lra.
    apply (round_cap_reached _ 150). lra. }
  assert (Hre : calcReviews data = 150).
  { unfold calcReviews, WEIGHTS.reviews.
    rewrite capped_term_full by lra.
    apply (round_cap_reached _ 150). lra. }
  assert (Hde : calcDeploymentMetrics data = 150).
  { unfold calcDeploymentMetrics, WEIGHTS.deploymentMetrics.
    apply (round_cap_reached _ 150). lra. }
  assert (Hon : calcOnchainReputation data = 100).
  { unfold calcOnchainReputation, WEIGHTS.onchainReputation.
    rewrite !capped_term_full by lra.
    apply (round_cap_reached _ 100). lra. }
  assert (Hse : calcSecurityAudit data = 100).
  { unfold calcSecurityAudit, WEIGHTS.securityAudit.
    rewrite Hflag. cbn [negb]. now apply Math_min_right. }
  assert (Hac : calcAccountAge data = 50).
  { unfold calcAccountAge, WEIGHTS.accountAge.
    rewrite capped_term_full by lra.
    apply (round_cap_reached _ 50). lra. }
  subst a.
  rewrite attested_trustScore. unfold sub_score_sum.
  rewrite attested_platformActivity, attested_skillVerifications,
    attested_endorsements, attested_reviews, attested_deploymentMetrics,
    attested_onchainReputation, attested_securityAudit, attested_accountAge.
  rewrite !applyDecay_not_elapsed by exact Hfresh.
  rewrite Hpa, Hsk, Hen, Hre, Hde, Hon, Hse, Hac.
  repeat split; try reflexivity. lra.
Qed.

Lemma saturated_input_scores_1000_witness :
  TrustAttestation.trustScore (calculateTrustScore demo_now saturated_agent)
  = 1000.
Proof.
  apply (saturated_input_scores_1000 demo_now saturated_agent).
  - unfold saturated_input, saturated_agent.
    cbn [AgentPlatformData.denMessages AgentPlatformData.dmsSent
         AgentPlatformData.promptResponses AgentPlatformData.verifiedSkills
         AgentPlatformData.totalSkills AgentPlatformData.endorsementsReceived
         AgentPlatformData.endorserAvgTrust AgentPlatformData.reviewCount
         AgentPlatformData.avgReviewScore AgentPlatformData.uptimePercent
         AgentPlatformData.responseQuality AgentPlatformData.walletAge
         AgentPlatformData.txCount AgentPlatformData.securityAuditPassed
         AgentPlatformData.auditScore AgentPlatformData.accountAgeDays].
    repeat split; lra.
  - unfold saturated_agent. cbn [AgentPlatformData.lastActivityAt]. lra.
Defined.

(** ** Beyond the specification: decay over time *)

(** Later never scores higher: for a non-negative integer score the decayed
    value does not grow as the clock advances, whether or not the last
    activity lies in the past. *)
Lemma applyDecay_antitone (score lastActivityAt now1 now2 : R) :
  is_integer score -> 0 <= score -> now1 <= now2 ->
  applyDecay score lastActivityAt now2 <= applyDecay score lastActivityAt now1.
Proof.
  intros Hint Hs H12.
  destruct (Rle_dec now1 lastActivityAt) as [Hfresh | Hstale].
  - rewrite (applyDecay_not_elapsed score lastActivityAt now1 Hfresh).
    now apply applyDecay_le_score.
  - apply Rnot_le_lt in Hstale.
    rewrite (applyDecay_elapsed score lastActivityAt now1) by exact Hstale.
    rewrite (applyDecay_elapsed score lastActivityAt now2) by lra.
    apply Math_round_le.
    destruct H12 as [Hlt | ->]; [| lra].
    pose proof (decayFactor_decreasing _ _
                  (elapsedMonths_lt lastActivityAt now1 now2 Hlt)).
    nra.
Qed.

(** Trust must be maintained: for a non-negative input, issuing the
    attestation later, with nothing else changed, never gives a higher
    [trustScore]. *)
Theorem trustScore_nonincreasing_in_time
    (now1 now2 : R) (data : AgentPlatformData.t) :
  nonneg_input data -> now1 <= now2 ->
  TrustAttestation.trustScore (calculateTrustScore now2 data)
  <= TrustAttestation.trustScore (calculateTrustScore now1 data).
Proof.
  intros (Hm & Hd & Hp & Hv & Ht & He & Het & Hr & Hrs & Hu & Hq & Hw & Htx
          & Ha & Hage & Hl) H12.
  rewrite !attested_trustScore. unfold sub_score_sum.
  rewrite !attested_platformActivity, !attested_skillVerifications,
    !attested_endorsements, !attested_reviews, !attested_deploymentMetrics,
    !attested_onchainReputation, !attested_securityAudit,
    !attested_accountAge.
  pose proof (applyDecay_antitone (calcPlatformActivity data)
                (AgentPlatformData.lastActivityAt data) now1 now2
                (calcPlatformActivity_integer data)
                (calcPlatformActivity_nonneg data Hm Hd Hp) H12).
  pose proof (applyDecay_antitone (calcEndorsements data)
                (AgentPlatformData.lastActivityAt data) now1 now2
                (calcEndorsements_integer data)
                (calcEndorsements_nonneg data He Het) H12).
  pose proof (applyDecay_antitone (calcReviews data)
                (AgentPlatformData.lastActivityAt data) now1 now2
                (calcReviews_integer data)
                (calcReviews_nonneg data Hr Hrs) H12).
  pose proof (applyDecay_antitone (calcDeploymentMetrics data)
                (AgentPlatformData.lastActivityAt data) now1 now2
                (calcDeploymentMetrics_integer data)
                (calcDeploymentMetrics_nonneg data Hu Hq) H12).
  lra.
Qed.

Lemma trustScore_nonincreasing_in_time_witness :
  TrustAttestation.trustScore
    (calculateTrustScore (demo_now + MONTH_MS) optimus_will)
  <= TrustAttestation.trustScore (calculateTrustScore demo_now optimus_will).
Proof.
  apply (trustScore_nonincreasing_in_time
           demo_now (demo_now + MONTH_MS) optimus_will).
  - exact (proj1 optimus_will_valid).
  - unfold MONTH_MS. lra.
Defined.

(** From [n] whole months on, the decay factor is at most [0.95 ^ n]. *)
Lemma decayFactor_le_whole (n : nat) (m : R) :
  INR n <= m -> Math_pow (1 - DECAY_RATE_MONTHLY) m <= (95 / 100) ^ n.
Proof.
  intros Hm. rewrite <- decayFactor_whole_months.
  destruct Hm as [Hlt | <-]; [| lra].
  left. now apply decayFactor_decreasing.
Qed.

Lemma applyDecay_vanishes (score lastActivityAt now : R) :
  0 <= score <= 150 -> 112 <= elapsedMonths lastActivityAt now ->
  applyDecay score lastActivityAt now = 0.
Proof.
  intros Hs Hm.
  assert (Hpos : 0 < elapsedMonths lastActivityAt now) by lra.
  rewrite applyDecay_elapsed
    by exact (proj2 (elapsedMonths_pos lastActivityAt now) Hpos).
  pose proof (decayFactor_bounds _ Hpos) as [Hf0 _].
  assert (Hf : Math_pow (1 - DECAY_RATE_MONTHLY)
                        (elapsedMonths lastActivityAt now)
               <= (95 / 100) ^ 112).
  { apply decayFactor_le_whole. rewrite INR_IZR_INZ. exact Hm. }
  assert (Hnum : (95 / 100) ^ 112 < 1 / 300) by lra.
  apply (Math_round_eq 0). nra.
Qed.

(** Activity trust runs out: for a non-negative input whose last activity
    lies 112 thirty-day months or more in the past, the four activity
    sub-scores are all 0 and [trustScore] is the sum of the four
    decay-immune sub-scores. *)
Theorem activity_scores_vanish (now : R) (data : AgentPlatformData.t) :
  nonneg_input data ->
  112 <= elapsedMonths (AgentPlatformData.lastActivityAt data) now ->
  let a := calculateTrustScore now data in
  TrustAttestation.platformActivity a = 0 /\
  TrustAttestation.endorsements a = 0 /\
  TrustAttestation.reviews a = 0 /\
  TrustAttestation.deploymentMetrics a = 0 /\
  TrustAttestation.trustScore a = durable_subtotal a.
Proof.
  intros (Hm & Hd & Hp & Hv & Ht & He & Het & Hr & Hrs & Hu & Hq & Hw & Htx
          & Ha & Hage & Hl) Hlong a.
  assert (Hpa : TrustAttestation.platformActivity a = 0).
  { subst a. rewrite attested_platformActivity.
    apply applyDecay_vanishes; [split | exact Hlong].
    - now apply calcPlatformActivity_nonneg.
    - apply calcPlatformActivity_below_cap. }
  assert (Hen : TrustAttestation.endorsements a = 0).
  { subst a. rewrite attested_endorsements.
    apply applyDecay_vanishes; [split | exact Hlong].
    - now apply calcEndorsements_nonneg.
    - apply calcEndorsements_below_cap. }
  assert (Hre : TrustAttestation.reviews a = 0).
  { subst a. rewrite attested_reviews.
    apply applyDecay_vanishes; [split | exact Hlong].
    - now apply calcReviews_nonneg.
    - apply calcReviews_below_cap. }
  assert (Hde : TrustAttestation.deploymentMetrics a = 0).
  { subst a. rewrite attested_deploymentMetrics.
    apply applyDecay_vanishes; [split | exact Hlong].
    - now apply calcDeploymentMetrics_nonneg.
    - apply calcDeploymentMetrics_below_cap. }
  repeat split; try assumption.
  unfold durable_subtotal.
  replace (TrustAttestation.trustScore a) with (sub_score_sum a)
    by (subst a; symmetry; apply attested_trustScore).
  unfold sub_score_sum. rewrite Hpa, Hen, Hre, Hde. lra.
Qed.

Lemma activity_scores_vanish_witness :
  let a := calculateTrustScore (112 * MONTH_MS) stale_messenger in
  TrustAttestation.platformActivity a = 0 /\
  TrustAttestation.endorsements a = 0 /\
  TrustAttestation.reviews a = 0 /\
  TrustAttestation.deploymentMetrics a = 0 /\
  TrustAttestation.trustScore a = durable_subtotal a.
Proof.
  apply (activity_scores_vanish (112 * MONTH_MS) stale_messenger).
  - unfold nonneg_input, stale_messenger.
    cbn [AgentPlatformData.denMessages AgentPlatformData.dmsSent
         AgentPlatformData.promptResponses AgentPlatformData.verifiedSkills
         AgentPlatformData.totalSkills AgentPlatformData.endorsementsReceived
         AgentPlatformData.endorserAvgTrust AgentPlatformData.reviewCount
         AgentPlatformData.avgReviewScore AgentPlatformData.uptimePercent
         AgentPlatformData.responseQuality AgentPlatformData.walletAge
         AgentPlatformData.txCount AgentPlatformData.auditScore
         AgentPlatformData.accountAgeDays AgentPlatformData.lastActivityAt].
    repeat split; lra.
  - unfold elapsedMonths, MONTH_MS, stale_messenger.
    cbn [AgentPlatformData.lastActivityAt]. lra.
Defined.

(** ** Beyond the specification: the query-time re-derivation *)

(** The decay reported at query time is always the stored score minus the
    current one, and for a non-negative integer activity subtotal it lies
    between 0 and that subtotal: the query never raises a score and never
    cuts into the decay-immune part. *)
Theorem decayApplied_within_activity
    (now : R) (attestation : TrustAttestation.t) :
  well_formed_activity attestation ->
  let r := getCurrentScore now attestation in
  decayApplied r = TrustAttestation.trustScore attestation - currentScore r
  /\ 0 <= decayApplied r <= activity_subtotal attestation.
Proof.
  intros [Hint Hge] r. subst r.
  destruct (getCurrentScore_cases now attestation)
    as [[_ Heq] | [_ [f [Hf [Hcur Hdec]]]]].
  - rewrite Heq. cbn [currentScore decayApplied]. lra.
  - rewrite Hcur, Hdec.
    pose proof (Math_round_shrink _ _ Hint Hge Hf). lra.
Qed.

Lemma decayApplied_within_activity_witness :
  let r := getCurrentScore (2 * MONTH_MS) stored_500_200 in
  decayApplied r = TrustAttestation.trustScore stored_500_200 - currentScore r
  /\ 0 <= decayApplied r <= activity_subtotal stored_500_200.
Proof.
  apply (decayApplied_within_activity (2 * MONTH_MS) stored_500_200).
  unfold well_formed_activity, activity_subtotal, stored_500_200.
  cbn [TrustAttestation.platformActivity TrustAttestation.endorsements
       TrustAttestation.reviews TrustAttestation.deploymentMetrics].
  split; [| lra].
  exists 200%Z. lra.
Defined.

(** Queried 139 thirty-day months or more after the last activity, an
    attestation whose activity subtotal lies in [0,600] yields exactly its
    score without the activity subtotal, and reports the whole subtotal as
    decay. *)
Theorem getCurrentScore_activity_vanishes
    (now : R) (attestation : TrustAttestation.t) :
  0 <= activity_subtotal attestation <= 600 ->
  139 <= elapsedMonths (TrustAttestation.lastActivityAt attestation) now ->
  currentScore (getCurrentScore now attestation)
  = TrustAttestation.trustScore attestation - activity_subtotal attestation
  /\ decayApplied (getCurrentScore now attestation)
     = activity_subtotal attestation.
Proof.
  intros Hact Hlong.
  assert (Hpos : 0 < elapsedMonths
                       (TrustAttestation.lastActivityAt attestation) now)
    by lra.
  rewrite (getCurrentScore_elapsed now attestation Hpos). cbv zeta.
  cbn [currentScore decayApplied].
  pose proof (decayFactor_bounds _ Hpos) as [Hf0 _].
  assert (Hf : Math_pow (1 - DECAY_RATE_MONTHLY)
                 (elapsedMonths
                    (TrustAttestation.lastActivityAt attestation) now)
               <= (95 / 100) ^ 139).
  { apply decayFactor_le_whole. rewrite INR_IZR_INZ. exact Hlong. }
  assert (Hnum : (95 / 100) ^ 139 < 1 / 1200) by lra.
  rewrite (Math_round_eq 0) by nra.
  split; lra.
Qed.

Lemma getCurrentScore_activity_vanishes_witness :
  currentScore (getCurrentScore (139 * MONTH_MS) stored_500_200) = 500 - 200
  /\ decayApplied (getCurrentScore (139 * MONTH_MS) stored_500_200) = 200.
Proof.
  assert (Hact : activity_subtotal stored_500_200 = 200).
  { unfold activity_subtotal, stored_500_200.
    cbn [TrustAttestation.platformActivity TrustAttestation.endorsements
         TrustAttestation.reviews TrustAttestation.deploymentMetrics].
    lra. }
  rewrite <- Hact.
  apply (getCurrentScore_activity_vanishes (139 * MONTH_MS) stored_500_200).
  - rewrite Hact. lra.
  - unfold elapsedMonths, MONTH_MS, stored_500_200.
    cbn [TrustAttestation.lastActivityAt]. lra.
Defined.

Lemma is_integer_opp (x : R) : is_integer x -> is_integer (- x).
Proof. intros [z ->]. exists (- z)%Z. now rewrite opp_IZR. Qed.

(** An integer strictly between -5/2 and 5/2 lies between -2 and 2. *)
Lemma integer_within_two (x : R) :
  is_integer x -> - (5 / 2) < x < 5 / 2 -> -2 <= x <= 2.
Proof.
  intros [z ->] [Hlo Hhi]. split.
  - apply IZR_le.
    assert (H : (-3 < z)%Z) by (apply lt_IZR; lra). lia.
  - apply IZR_le.
    assert (H : (z < 3)%Z) by (apply lt_IZR; lra). lia.
Qed.

(** Pooled against per-dimension rounding: rounding the decayed sum of four
    scores once differs from the sum of the four separately rounded decayed
    scores by at most 2. *)
Lemma pooled_rounding_within_two (a1 a2 a3 a4 f : R) :
  -2 <= Math_round ((a1 + a2 + a3 + a4) * f)
        - (Math_round (a1 * f) + Math_round (a2 * f)
           + Math_round (a3 * f) + Math_round (a4 * f)) <= 2.
Proof.
  apply integer_within_two.
  - apply is_integer_minus; [apply Math_round_integer |].
    repeat apply is_integer_plus; apply Math_round_integer.
  - pose proof (Math_round_bounds ((a1 + a2 + a3 + a4) * f)).
    pose proof (Math_round_bounds (a1 * f)).
    pose proof (Math_round_bounds (a2 * f)).
    pose proof (Math_round_bounds (a3 * f)).
    pose proof (Math_round_bounds (a4 * f)).
    lra.
Qed.

(** The two decay strategies side by side.  Take an attestation issued
    while no time had elapsed since the last activity, so that it stores
    the undecayed sub-scores.  Its current score at any later clock, which
    decays the pooled activity subtotal and rounds once, is within 2 points
    of the [trustScore] of a fresh attestation computed from the same input
    at that clock, which decays and rounds each dimension on its own.  This
    holds for every input. *)
Theorem query_within_two_of_reissue
    (issued now : R) (data : AgentPlatformData.t) :
  issued <= AgentPlatformData.lastActivityAt data ->
  let stored := calculateTrustScore issued data in
  let fresh := calculateTrustScore now data in
  -2 <= currentScore (getCurrentScore now stored)
        - TrustAttestation.trustScore fresh <= 2.
Proof.
  intros Hissued stored fresh.
  set (last := AgentPlatformData.lastActivityAt data) in *.
  assert (Hpa : TrustAttestation.platformActivity stored
                = calcPlatformActivity data).
  { subst stored. rewrite attested_platformActivity.
    now apply applyDecay_not_elapsed. }
  assert (Hen : TrustAttestation.endorsements stored = calcEndorsements data).
  { subst stored. rewrite attested_endorsements.
    now apply applyDecay_not_elapsed. }
  assert (Hre : TrustAttestation.reviews stored = calcReviews data).
  { subst stored. rewrite attested_reviews.
    now apply applyDecay_not_elapsed. }
  assert (Hde : TrustAttestation.deploymentMetrics stored
                = calcDeploymentMetrics data).
  { subst stored. rewrite attested_deploymentMetrics.
    now apply applyDecay_not_elapsed. }
  assert (Hts : TrustAttestation.trustScore stored
                = calcPlatformActivity data + calcSkillVerifications data
                  + calcEndorsements data + calcReviews data
                  + calcDeploymentMetrics data + calcOnchainReputation data
                  + calcSecurityAudit data + calcAccountAge data).
  { replace (TrustAttestation.trustScore stored) with (sub_score_sum stored)
      by (subst stored; symmetry; apply attested_trustScore).
    unfold sub_score_sum. rewrite Hpa, Hen, Hre, Hde. reflexivity. }
  assert (Hfresh : TrustAttestation.trustScore fresh
                   = applyDecay (calcPlatformActivity data) last now
                     + calcSkillVerifications data
                     + applyDecay (calcEndorsements data) last now
                     + applyDecay (calcReviews data) last now
                     + applyDecay (calcDeploymentMetrics data) last now
                     + calcOnchainReputation data
                     + calcSecurityAudit data + calcAccountAge data).
  { subst fresh. rewrite attested_trustScore. reflexivity. }
  assert (Hlast : TrustAttestation.lastActivityAt stored = last)
    by reflexivity.
  destruct (Rle_dec (elapsedMonths last now) 0) as [Hle | Hgt].
  - rewrite getCurrentScore_not_elapsed by (rewrite Hlast; exact Hle).
    cbn [currentScore]. rewrite Hts, Hfresh.
    assert (Hnow : now <= last).
    { apply Rnot_lt_le. intros Hlt.
      apply (proj1 (elapsedMonths_pos last now)) in Hlt. lra. }
    rewrite !applyDecay_not_elapsed by exact Hnow. lra.
  - apply Rnot_le_lt in Hgt.
    rewrite getCurrentScore_elapsed by (rewrite Hlast; exact Hgt).
    cbv zeta. cbn [currentScore]. rewrite Hlast, Hts, Hfresh.
    assert (Hnow : last < now)
      by exact (proj2 (elapsedMonths_pos last now) Hgt).
    rewrite !applyDecay_elapsed by exact Hnow.
    unfold activity_subtotal. rewrite Hpa, Hen, Hre, Hde.
    pose proof (pooled_rounding_within_two
                  (calcPlatformActivity data) (calcEndorsements data)
                  (calcReviews data) (calcDeploymentMetrics data)
                  (Math_pow (1 - DECAY_RATE_MONTHLY)
                            (elapsedMonths last now))).
    lra.
Qed.

Lemma query_within_two_of_reissue_witness :
  -2 <= currentScore
          (getCurrentScore MONTH_MS (calculateTrustScore 0 stale_messenger))
        - TrustAttestation.trustScore
            (calculateTrustScore MONTH_MS stale_messenger) <= 2.
Proof.
  apply (query_within_two_of_reissue 0 MONTH_MS stale_messenger).
  unfold stale_messenger. cbn [AgentPlatformData.lastActivityAt]. lra.
Defined.

(** ** Beyond the specification: the memo payload *)

Lemma Math_floor_bounds (x : R) : Math_floor x <= x < Math_floor x + 1.
Proof. unfold Math_floor. apply Zfloor_bound. Qed.

Lemma Math_floor_le (x y : R) : x <= y -> Math_floor x <= Math_floor y.
Proof. intros Hxy. unfold Math_floor. now apply IZR_le, Zfloor_le. Qed.

(** The memo stores both timestamps in whole seconds: each is an integer,
    at most the millisecond stamp and less than one second below it; the
    order of last activity and issuance survives; and the elapsed time read
    back from the memo is off by less than one second. *)
Theorem compactAttestation_timestamps (attestation : TrustAttestation.t) :
  let memo := compactAttestation attestation in
  let issued := TrustAttestation.attestedAt attestation in
  let last := TrustAttestation.lastActivityAt attestation in
  is_integer (CompactAttestation.at_ memo) /\
  is_integer (CompactAttestation.la memo) /\
  0 <= issued - 1000 * CompactAttestation.at_ memo < 1000 /\
  0 <= last - 1000 * CompactAttestation.la memo < 1000 /\
  (last <= issued -> CompactAttestation.la memo <= CompactAttestation.at_ memo)
  /\ -1000 < 1000 * (CompactAttestation.at_ memo - CompactAttestation.la memo)
             - (issued - last) < 1000.
Proof.
  intros memo issued last. subst memo.
  cbn [compactAttestation CompactAttestation.at_ CompactAttestation.la].
  fold issued last.
  pose proof (Math_floor_bounds (issued / 1000)) as Hi.
  pose proof (Math_floor_bounds (last / 1000)) as Hl.
  repeat split; try lra.
  - exists (Zfloor (issued / 1000)). reflexivity.
  - exists (Zfloor (last / 1000)). reflexivity.
  - intros Hle. apply Math_floor_le. lra.
Qed.

Lemma compactAttestation_timestamps_witness :
  CompactAttestation.la (compactAttestation stored_subsecond)
  <= CompactAttestation.at_ (compactAttestation stored_subsecond).
Proof.
  apply (compactAttestation_timestamps stored_subsecond).
  unfold stored_subsecond.
  cbn [TrustAttestation.attestedAt TrustAttestation.lastActivityAt]. lra.
Defined.

(** What [/trust/attest] puts on chain.  For every input and clock, the
    memo of the attestation the engine issues is self-consistent: protocol
    version and attestation version are 1, the decay rate is 5, the tier and
    identity are the input's, no component exceeds its cap, and [ts] is the
    sum of the eight components under [c] and at most 1000. *)
Theorem compactAttestation_of_issued (now : R) (data : AgentPlatformData.t) :
  let memo := compactAttestation (calculateTrustScore now data) in
  let c := CompactAttestation.c memo in
  CompactAttestation.v memo = 1 /\
  CompactAttestation.ver memo = 1 /\
  CompactAttestation.dr memo = 5 /\
  CompactAttestation.id memo = AgentPlatformData.agentId data /\
  CompactAttestation.vt memo = AgentPlatformData.verificationTier data /\
  CompactAttestation.at_ memo = Math_floor (now / 1000) /\
  (CompactComponents.pa c <= 150 /\ CompactComponents.sv c <= 150 /\
   CompactComponents.en c <= 150 /\ CompactComponents.rv c <= 150 /\
   CompactComponents.dm c <= 150 /\ CompactComponents.or c <= 100 /\
   CompactComponents.sa c <= 100 /\ CompactComponents.aa c <= 50) /\
  CompactAttestation.ts memo
  = CompactComponents.pa c + CompactComponents.sv c + CompactComponents.en c
    + CompactComponents.rv c + CompactComponents.dm c + CompactComponents.or c
    + CompactComponents.sa c + CompactComponents.aa c /\
  CompactAttestation.ts memo <= 1000.
Proof.
  intros memo c. subst c memo.
  cbn [compactAttestation CompactAttestation.v CompactAttestation.ver
       CompactAttestation.dr CompactAttestation.id CompactAttestation.vt
       CompactAttestation.at_ CompactAttestation.c CompactAttestation.ts
       CompactComponents.pa CompactComponents.sv CompactComponents.en
       CompactComponents.rv CompactComponents.dm CompactComponents.or
       CompactComponents.sa CompactComponents.aa].
  pose proof (attested_below_caps now data) as Hcaps.
  pose proof (attested_trustScore now data) as Hsum.
  unfold sub_scores_below_caps in Hcaps. unfold sub_score_sum in Hsum.
  split; [reflexivity |]. split; [reflexivity |].
  split.
  { change (TrustAttestation.decayRate (calculateTrustScore now data))
      with (DECAY_RATE_MONTHLY * 100).
    unfold DECAY_RATE_MONTHLY. lra. }
  split; [reflexivity |]. split; [reflexivity |]. split; [reflexivity |].
  split; [exact Hcaps |]. split; [exact Hsum |].
  rewrite Hsum. lra.
Qed.

(** The memo loses only the issuer name and the sub-second part of the two
    timestamps: two attestations get the same memo exactly when they agree
    on identity, scores, tier, version and decay rate and their timestamps
    fall in the same second. *)
Theorem compactAttestation_same_memo (a b : TrustAttestation.t) :
  compactAttestation a = compactAttestation b <->
  (TrustAttestation.agentId a = TrustAttestation.agentId b /\
   TrustAttestation.agentName a = TrustAttestation.agentName b /\
   TrustAttestation.solanaWallet a = TrustAttestation.solanaWallet b /\
   TrustAttestation.trustScore a = TrustAttestation.trustScore b /\
   TrustAttestation.platformActivity a = TrustAttestation.platformActivity b /\
   TrustAttestation.skillVerifications a
   = TrustAttestation.skillVerifications b /\
   TrustAttestation.endorsements a = TrustAttestation.endorsements b /\
   TrustAttestation.reviews a = TrustAttestation.reviews b /\
   TrustAttestation.deploymentMetrics a
   = TrustAttestation.deploymentMetrics b /\
   TrustAttestation.onchainReputation a
   = TrustAttestation.onchainReputation b /\
   TrustAttestation.securityAudit a = TrustAttestation.securityAudit b /\
   TrustAttestation.accountAge a = TrustAttestation.accountAge b /\
   TrustAttestation.verificationTier a = TrustAttestation.verificationTier b /\
   Math_floor (TrustAttestation.attestedAt a / 1000)
   = Math_floor (TrustAttestation.attestedAt b / 1000) /\
   Math_floor (TrustAttestation.lastActivityAt a / 1000)
   = Math_floor (TrustAttestation.lastActivityAt b / 1000) /\
   TrustAttestation.version a = TrustAttestation.version b /\
   TrustAttestation.decayRate a = TrustAttestation.decayRate b).
Proof.
  unfold compactAttestation. split.
  - intros Heq. injection Heq. intros. repeat split; assumption.
  - intros (H1 & H2 & H3 & H4 & H5 & H6 & H7 & H8 & H9 & H10 & H11 & H12
            & H13 & H14 & H15 & H16 & H17).
    rewrite H1, H2, H3, H4, H5, H6, H7, H8, H9, H10, H11, H12, H13, H14,
      H15, H16, H17.
    reflexivity.
Qed.

(** ** Beyond the specification: the attestation address *)

Lemma byte_of_hex_of_byte (b : Byte.byte) :
  byte_of_hex (hex_digit (Byte.to_N b / 16)) (hex_digit (Byte.to_N b mod 16))
  = Some b.
Proof. destruct b; vm_compute; reflexivity. Qed.

Lemma hex_of_byte_digits (b : Byte.byte) :
  In (hex_digit (Byte.to_N b / 16)) hex_digits /\
  In (hex_digit (Byte.to_N b mod 16)) hex_digits.
Proof.
  assert (Hnib : forall n, (n < 16)%N -> In (hex_digit n) hex_digits).
  { intros n Hn. unfold hex_digit. apply nth_In.
    change (List.length hex_digits) with 16%nat. lia. }
  pose proof (Byte.to_N_bounded b) as Hb.
  split; apply Hnib.
  - apply N.Div0.div_lt_upper_bound. lia.
  - apply N.mod_lt. discriminate.
Qed.

Lemma toString_hex_inj (l1 l2 : list Byte.byte) :
  toString_hex l1 = toString_hex l2 -> l1 = l2.
Proof.
  revert l2. induction l1 as [| b1 r1 IH]; intros [| b2 r2] Heq;
    cbn [toString_hex] in Heq; try discriminate; [reflexivity |].
  injection Heq as Hhi Hlo Hrest.
  pose proof (byte_of_hex_of_byte b1) as H1.
  rewrite Hhi, Hlo, byte_of_hex_of_byte in H1.
  injection H1 as ->. f_equal. now apply IH.
Qed.

Lemma toString_hex_length (l : list Byte.byte) :
  String.length (toString_hex l) = (2 * List.length l)%nat.
Proof.
  induction l as [| b r IH]; cbn [toString_hex String.length List.length].
  - reflexivity.
  - rewrite IH. lia.
Qed.

(** Cutting the hex text after [2 * k] characters keeps the first [k]
    bytes. *)
Lemma slice_toString_hex (k : nat) (l : list Byte.byte) :
  slice 0 (2 * k) (toString_hex l) = toString_hex (firstn k l).
Proof.
  unfold slice. rewrite Nat.sub_0_r.
  revert l. induction k as [| k IH]; intros l.
  - destruct l; reflexivity.
  - destruct l as [| b r].
    + reflexivity.
    + replace (2 * S k)%nat with (S (S (2 * k))) by lia.
      cbn [toString_hex substring firstn]. now rewrite IH.
Qed.

Lemma getAttestationAddress_first_16_bytes
    (sha256 : string -> list Byte.byte) (agentId : string) :
  getAttestationAddress sha256 agentId
  = toString_hex (firstn 16 (sha256 ("moltbotden-trust:" ++ agentId)%string)).
Proof.
  unfold getAttestationAddress. cbv zeta.
  apply (slice_toString_hex 16).
Qed.

(** The address of an agent is 32 lowercase hexadecimal digits whenever the
    digest has at least 16 bytes, as a SHA-256 digest, with 32, has. *)
Theorem getAttestationAddress_shape
    (sha256 : string -> list Byte.byte) (agentId : string) :
  (16 <= List.length (sha256 ("moltbotden-trust:" ++ agentId)%string))%nat ->
  String.length (getAttestationAddress sha256 agentId) = 32%nat /\
  Forall (fun c => In c hex_digits)
         (list_ascii_of_string (getAttestationAddress sha256 agentId)).
Proof.
  intros Hlen. rewrite getAttestationAddress_first_16_bytes. split.
  - rewrite toString_hex_length, length_firstn. lia.
  - generalize (firstn 16 (sha256 ("moltbotden-trust:" ++ agentId)%string)).
    intros l. induction l as [| b r IH];
      cbn [toString_hex list_ascii_of_string].
    + constructor.
    + destruct (hex_of_byte_digits b) as [Hhi Hlo].
      constructor; [exact Hhi |]. constructor; [exact Hlo | exact IH].
Qed.

Lemma getAttestationAddress_shape_witness :
  String.length (getAttestationAddress padded_digest "optimus-will")
  = 32%nat /\
  Forall (fun c => In c hex_digits)
         (list_ascii_of_string
            (getAttestationAddress padded_digest "optimus-will")).
Proof.
  apply (getAttestationAddress_shape padded_digest "optimus-will").
  vm_compute. lia.
Defined.

(** The address keeps exactly the first 16 bytes of the digest: two agent
    ids get the same address if and only if their digests agree on their
    first 16 bytes. *)
Theorem getAttestationAddress_collision
    (sha256 : string -> list Byte.byte) (id1 id2 : string) :
  getAttestationAddress sha256 id1 = getAttestationAddress sha256 id2 <->
  firstn 16 (sha256 ("moltbotden-trust:" ++ id1)%string)
  = firstn 16 (sha256 ("moltbotden-trust:" ++ id2)%string).
Proof.
  rewrite !getAttestationAddress_first_16_bytes. split.
  - apply toString_hex_inj.
  - intros ->. reflexivity.
Qed.

(** ** Beyond the specification: what the scores are made of *)

(** Identity and tier buy no score: two inputs with the same metrics, audit
    flag and last activity get the same eight sub-scores and the same
    [trustScore] at the same clock, whatever their ids, names, wallets and
    verification tiers. *)
Theorem scores_ignore_identity_and_tier
    (now : R) (d1 d2 : AgentPlatformData.t) :
  same_metrics d1 d2 ->
  let a1 := calculateTrustScore now d1 in
  let a2 := calculateTrustScore now d2 in
  TrustAttestation.platformActivity a1 = TrustAttestation.platformActivity a2
  /\ TrustAttestation.skillVerifications a1
     = TrustAttestation.skillVerifications a2
  /\ TrustAttestation.endorsements a1 = TrustAttestation.endorsements a2
  /\ TrustAttestation.reviews a1 = TrustAttestation.reviews a2
  /\ TrustAttestation.deploymentMetrics a1
     = TrustAttestation.deploymentMetrics a2
  /\ TrustAttestation.onchainReputation a1
     = TrustAttestation.onchainReputation a2
  /\ TrustAttestation.securityAudit a1 = TrustAttestation.securityAudit a2
  /\ TrustAttestation.accountAge a1 = TrustAttestation.accountAge a2
  /\ TrustAttestation.trustScore a1 = TrustAttestation.trustScore a2.
Proof.
  intros (Hm & Hd & Hp & He & Het & Hr & Hrs & Hu & Hq & Hl
          & Hv & Ht & Hw & Htx & Hf & Ha & Hage) a1 a2.
  assert (Hpa : calcPlatformActivity d1 = calcPlatformActivity d2)
    by (unfold calcPlatformActivity; now rewrite Hm, Hd, Hp).
  assert (Hsk : calcSkillVerifications d1 = calcSkillVerifications d2)
    by (unfold calcSkillVerifications; now rewrite Hv, Ht).
  assert (Hen : calcEndorsements d1 = calcEndorsements d2)
    by (unfold calcEndorsements; now rewrite He, Het).
  assert (Hre : calcReviews d1 = calcReviews d2)
    by (unfold calcReviews; now rewrite Hr, Hrs).
  assert (Hde : calcDeploymentMetrics d1 = calcDeploymentMetrics d2)
    by (unfold calcDeploymentMetrics; now rewrite Hu, Hq).
  assert (Hon : calcOnchainReputation d1 = calcOnchainReputation d2)
    by (unfold calcOnchainReputation; now rewrite Hw, Htx).
  assert (Hse : calcSecurityAudit d1 = calcSecurityAudit d2)
    by (unfold calcSecurityAudit; now rewrite Hf, Ha).
  assert (Hac : calcAccountAge d1 = calcAccountAge d2)
    by (unfold calcAccountAge; now rewrite Hage).
  subst a1 a2. rewrite !attested_trustScore. unfold sub_score_sum.
  rewrite !attested_platformActivity, !attested_skillVerifications,
    !attested_endorsements, !attested_reviews, !attested_deploymentMetrics,
    !attested_onchainReputation, !attested_securityAudit,
    !attested_accountAge.
  rewrite Hpa, Hsk, Hen, Hre, Hde, Hon, Hse, Hac, Hl.
  repeat split; reflexivity.
Qed.

Lemma scores_ignore_identity_and_tier_witness :
  TrustAttestation.trustScore (calculateTrustScore demo_now optimus_will)
  = TrustAttestation.trustScore
      (calculateTrustScore demo_now optimus_will_renamed).
Proof.
  apply (scores_ignore_identity_and_tier
           demo_now optimus_will optimus_will_renamed).
  unfold same_metrics, same_durable_metrics, optimus_will,
    optimus_will_renamed.
  repeat split; reflexivity.
Defined.

(** Which scores are whole numbers.  For every input and clock, seven of
    the eight stored sub-scores are integers; the security-audit score is
    passed through unrounded, and [trustScore] is an integer whenever that
    one is. *)
Theorem attested_integrality (now : R) (data : AgentPlatformData.t) :
  let a := calculateTrustScore now data in
  is_integer (TrustAttestation.platformActivity a) /\
  is_integer (TrustAttestation.skillVerifications a) /\
  is_integer (TrustAttestation.endorsements a) /\
  is_integer (TrustAttestation.reviews a) /\
  is_integer (TrustAttestation.deploymentMetrics a) /\
  is_integer (TrustAttestation.onchainReputation a) /\
  is_integer (TrustAttestation.accountAge a) /\
  (is_integer (TrustAttestation.securityAudit a) ->
   is_integer (TrustAttestation.trustScore a)).
Proof.
  intros a.
  assert (Ipa : is_integer (TrustAttestation.platformActivity a))
    by (subst a; rewrite attested_platformActivity;
        apply applyDecay_integer, calcPlatformActivity_integer).
  assert (Isk : is_integer (TrustAttestation.skillVerifications a))
    by (subst a; rewrite attested_skillVerifications;
        apply calcSkillVerifications_integer).
  assert (Ien : is_integer (TrustAttestation.endorsements a))
    by (subst a; rewrite attested_endorsements;
        apply applyDecay_integer, calcEndorsements_integer).
  assert (Ire : is_integer (TrustAttestation.reviews a))
    by (subst a; rewrite attested_reviews;
        apply applyDecay_integer, calcReviews_integer).
  assert (Ide : is_integer (TrustAttestation.deploymentMetrics a))
    by (subst a; rewrite attested_deploymentMetrics;
        apply applyDecay_integer, calcDeploymentMetrics_integer).
  assert (Ion : is_integer (TrustAttestation.onchainReputation a))
    by (subst a; rewrite attested_onchainReputation;
        apply calcOnchainReputation_integer).
  assert (Iac : is_integer (TrustAttestation.accountAge a))
    by (subst a; rewrite attested_accountAge; apply calcAccountAge_integer).
  repeat split; try assumption.
  intros Ise.
  replace (TrustAttestation.trustScore a) with (sub_score_sum a)
    by (subst a; symmetry; apply attested_trustScore).
  unfold sub_score_sum. repeat apply is_integer_plus; assumption.
Qed.

(** With the audit not passed, every score of the attestation is an
    integer. *)
Lemma attested_integrality_witness :
  is_integer
    (TrustAttestation.trustScore (calculateTrustScore demo_now optimus_will)).
Proof.
  apply (attested_integrality demo_now optimus_will).
  rewrite attested_securityAudit. exists 0%Z. reflexivity.
Defined.

(** At query time too, later never scores higher: for a stored activity
    subtotal that is a non-negative integer, the current score does not
    grow as the query clock advances, and never exceeds the stored
    [trustScore]. *)
Theorem currentScore_nonincreasing_in_time
    (now1 now2 : R) (attestation : TrustAttestation.t) :
  well_formed_activity attestation -> now1 <= now2 ->
  currentScore (getCurrentScore now2 attestation)
  <= currentScore (getCurrentScore now1 attestation)
  /\ currentScore (getCurrentScore now1 attestation)
     <= TrustAttestation.trustScore attestation.
Proof.
  intros [Hint Hge] H12.
  set (last := TrustAttestation.lastActivityAt attestation).
  assert (Hbelow : forall now,
             currentScore (getCurrentScore now attestation)
             <= TrustAttestation.trustScore attestation).
  { intros now.
    destruct (getCurrentScore_cases now attestation)
      as [[_ Heq] | [_ [f [Hf [Hcur _]]]]].
    - rewrite Heq. cbn [currentScore]. lra.
    - rewrite Hcur. pose proof (Math_round_shrink _ _ Hint Hge Hf). lra. }
  split; [| apply Hbelow].
  destruct (Rle_dec (elapsedMonths last now1) 0) as [Hle | Hgt].
  - rewrite (getCurrentScore_not_elapsed now1 attestation Hle).
    cbn [currentScore]. apply Hbelow.
  - apply Rnot_le_lt in Hgt.
    destruct H12 as [Hlt | ->]; [| lra].
    pose proof (elapsedMonths_lt last now1 now2 Hlt) as Hm.
    assert (Hgt2 : 0 < elapsedMonths last now2) by lra.
    rewrite (getCurrentScore_elapsed now1 attestation Hgt).
    rewrite (getCurrentScore_elapsed now2 attestation Hgt2).
    cbv zeta. cbn [currentScore].
    pose proof (decayFactor_decreasing _ _ Hm) as Hf.
    apply Rplus_le_compat_l, Math_round_le. fold last. nra.
Qed.

Lemma currentScore_nonincreasing_in_time_witness :
  currentScore (getCurrentScore (2 * MONTH_MS) stored_500_200)
  <= currentScore (getCurrentScore MONTH_MS stored_500_200)
  /\ currentScore (getCurrentScore MONTH_MS stored_500_200)
     <= TrustAttestation.trustScore stored_500_200.
Proof.
  apply (currentScore_nonincreasing_in_time
           MONTH_MS (2 * MONTH_MS) stored_500_200).
  - unfold well_formed_activity, activity_subtotal, stored_500_200.
    cbn [TrustAttestation.platformActivity TrustAttestation.endorsements
         TrustAttestation.reviews TrustAttestation.deploymentMetrics].
    split; [| lra].
    exists 200%Z. lra.
  - unfold MONTH_MS. lra.
Defined.

(** Decay compounds by the month: [n] whole thirty-day months after the
    last activity, with [n] at least 1, a score is decayed to itself times
    [0.95 ^ n], rounded. *)
Theorem applyDecay_whole_months (score lastActivityAt : R) (n : nat) :
  (1 <= n)%nat ->
  applyDecay score lastActivityAt (lastActivityAt + INR n * MONTH_MS)
  = Math_round (score * (95 / 100) ^ n).
Proof.
  intros Hn.
  assert (Hm : elapsedMonths lastActivityAt
                 (lastActivityAt + INR n * MONTH_MS) = INR n).
  { unfold elapsedMonths. pose proof MONTH_MS_pos as Hpos.
    replace (lastActivityAt + INR n * MONTH_MS - lastActivityAt)
      with (INR n * MONTH_MS) by lra.
    unfold Rdiv. rewrite Rmult_assoc, Rinv_r by lra. lra. }
  assert (Hpos : 0 < INR n) by (apply lt_0_INR; lia).
  rewrite applyDecay_elapsed.
  - now rewrite Hm, decayFactor_whole_months.
  - apply elapsedMonths_pos. rewrite Hm. exact Hpos.
Qed.

Lemma applyDecay_whole_months_witness :
  applyDecay 150 demo_now (demo_now + INR 3 * MONTH_MS)
  = Math_round (150 * (95 / 100) ^ 3).
Proof.
  apply (applyDecay_whole_months 150 demo_now 3). lia.
Defined.
